(** * The Zoom recordings page handler (netlify/functions/recordings.js)

    A shallow embedding of the two versions of [exports.handler] and of the
    JavaScript operations they rely on, followed by the properties of the
    handler.  Strings are byte strings in UTF-8; JavaScript values are the
    values [JSON.parse] can produce, plus [undefined]. *)

From Stdlib Require Import ZArith QArith Qpower Lia.
From stdpp Require Import base gmap strings list.

Local Open Scope Z_scope.

(** ** Numbers

    A JavaScript number is an IEEE-754 binary64 value.  A finite one is kept
    as [m * 2^e] with [m] odd, or [m = e = 0] for zero; the sign of zero is
    not kept (the handler never observes it: [-0 === 0], both are falsy). *)

Inductive number :=
| NaN
| Infinity (negative : bool)
| Finite (m e : Z).

Fixpoint strip_even (p : positive) (e : Z) : positive * Z :=
  match p with
  | xO p' => strip_even p' (e + 1)
  | _ => (p, e)
  end.

Definition normal (negative : bool) (m e : Z) : number :=
  match m with
  | Zpos p => let (p', e') := strip_even p e in
              Finite (if negative then Zneg p' else Zpos p') e'
  | _ => Finite 0 0
  end.

(** Quotient of [a] by [b] rounded to the nearest integer, ties to even. *)
Definition div_half_even (a b : Z) : Z :=
  let q := a / b in
  let r := a mod b in
  if 2 * r <? b then q
  else if b <? 2 * r then q + 1
  else if Z.even q then q else q + 1.

(** The binary64 value nearest to [n / d], for [n > 0] and [d > 0]:
    53 bits of precision, exponents down to [2^-1074], overflow to infinity. *)
Definition round_ratio (negative : bool) (n d : Z) : number :=
  let lg := Z.log2 n - Z.log2 d in
  let e0 := if (if 0 <=? lg then d * 2 ^ lg <=? n else d <=? n * 2 ^ (- lg))
            then lg else lg - 1 in
  let ue := Z.max (e0 - 52) (-1074) in
  let m := if 0 <=? ue then div_half_even n (d * 2 ^ ue)
           else div_half_even (n * 2 ^ (- ue)) d in
  if 1024 <=? Z.log2 m + ue then Infinity negative
  else normal negative m ue.

(** [c * 10^k] as a number. *)
Definition decimal_value (negative : bool) (c k : Z) : number :=
  if c <=? 0 then Finite 0 0
  else if 0 <=? k then round_ratio negative (c * 10 ^ k) 1
  else round_ratio negative c (10 ^ (- k)).

Definition number_of_Z (z : Z) : number :=
  match z with
  | Z0 => Finite 0 0
  | Zpos _ => round_ratio false z 1
  | Zneg p => round_ratio true (Zpos p) 1
  end.

(** ** [Number(string)]: the StringNumericLiteral grammar *)

Definition bytes (s : string) : list N :=
  map Ascii.N_of_ascii (String.list_ascii_of_string s).

(** Leading white space and line terminators: TAB, LF, VT, FF, CR, SP, and in
    UTF-8 U+00A0, U+1680, U+2000..U+200A, U+2028, U+2029, U+202F, U+205F,
    U+3000 and U+FEFF. *)
Fixpoint skip_space (l : list N) : list N :=
  match l with
  | a :: r1 =>
      if ((9 <=? a) && (a <=? 13) || (a =? 32))%N then skip_space r1 else
      match r1 with
      | b :: r2 =>
          if ((a =? 194) && (b =? 160))%N then skip_space r2 else
          match r2 with
          | c :: r3 =>
              if ((a =? 225) && (b =? 154) && (c =? 128)
                  || (a =? 226) && (b =? 128)
                     && ((128 <=? c) && (c <=? 138) || (c =? 168) || (c =? 169)
                         || (c =? 175))
                  || (a =? 226) && (b =? 129) && (c =? 159)
                  || (a =? 227) && (b =? 128) && (c =? 128)
                  || (a =? 239) && (b =? 187) && (c =? 191))%N
              then skip_space r3 else l
          | [] => l
          end
      | [] => l
      end
  | [] => []
  end.

(** The same from the end, on the reversed list of bytes. *)
Fixpoint skip_space_rev (l : list N) : list N :=
  match l with
  | a :: r1 =>
      if ((9 <=? a) && (a <=? 13) || (a =? 32))%N then skip_space_rev r1 else
      match r1 with
      | b :: r2 =>
          if ((b =? 194) && (a =? 160))%N then skip_space_rev r2 else
          match r2 with
          | c :: r3 =>
              if ((c =? 225) && (b =? 154) && (a =? 128)
                  || (c =? 226) && (b =? 128)
                     && ((128 <=? a) && (a <=? 138) || (a =? 168) || (a =? 169)
                         || (a =? 175))
                  || (c =? 226) && (b =? 129) && (a =? 159)
                  || (c =? 227) && (b =? 128) && (a =? 128)
                  || (c =? 239) && (b =? 187) && (a =? 191))%N
              then skip_space_rev r3 else l
          | [] => l
          end
      | [] => l
      end
  | [] => []
  end.

Definition trim (l : list N) : list N :=
  rev (skip_space_rev (rev (skip_space l))).

Definition digit_value (radix : Z) (a : N) : option Z :=
  let d := if ((48 <=? a) && (a <=? 57))%N then Z.of_N a - 48
           else if ((97 <=? a) && (a <=? 102))%N then Z.of_N a - 87
           else if ((65 <=? a) && (a <=? 70))%N then Z.of_N a - 55
           else 99 in
  if d <? radix then Some d else None.

(** The longest run of digits at the head of [l]: its value from [acc], its
    length, and what follows. *)
Fixpoint digits (radix : Z) (acc : Z) (l : list N) : Z * Z * list N :=
  match l with
  | a :: r =>
      match digit_value radix a with
      | Some d => let '(v, n, rest) := digits radix (acc * radix + d) r in
                  (v, n + 1, rest)
      | None => (acc, 0, l)
      end
  | [] => (acc, 0, [])
  end.

(** The whole of [l] as digits in [radix], at least one. *)
Definition integer_literal (radix : Z) (l : list N) : number :=
  match digits radix 0 l with
  | (v, n, []) => if 0 <? n then number_of_Z v else NaN
  | _ => NaN
  end.

(** ExponentPart, optional: the exponent read and what follows; [None] when
    an exponent indicator is not followed by a SignedInteger. *)
Definition exponent_part (l : list N) : option (Z * list N) :=
  match l with
  | a :: r =>
      if ((a =? 101) || (a =? 69))%N then
        let '(negative, r') :=
          match r with
          | s :: r' => if (s =? 43)%N then (false, r')
                       else if (s =? 45)%N then (true, r') else (false, r)
          | [] => (false, r)
          end in
        match digits 10 0 r' with
        | (v, n, rest) =>
            if 0 <? n then Some (if negative then - v else v, rest) else None
        end
      else Some (0, l)
  | [] => Some (0, [])
  end.

(** StrUnsignedDecimalLiteral, the whole of [l]. *)
Definition unsigned_decimal (negative : bool) (l : list N) : number :=
  if bool_decide (l = bytes "Infinity") then Infinity negative else
  let '(ip, n1, r1) := digits 10 0 l in
  let '(c, n2, r2) :=
    match r1 with
    | a :: r => if (a =? 46)%N then digits 10 ip r else (ip, -1, r1)
    | [] => (ip, -1, r1)
    end in
  if (0 <? n1) || (0 <? n2) then
    match exponent_part r2 with
    | Some (ex, []) => decimal_value negative c (ex - Z.max n2 0)
    | _ => NaN
    end
  else NaN.

Definition string_to_number (l : list N) : number :=
  match trim l with
  | [] => Finite 0 0
  | a :: r =>
      if (a =? 43)%N then unsigned_decimal false r
      else if (a =? 45)%N then unsigned_decimal true r
      else match r with
           | b :: r' =>
               if (a =? 48)%N && ((b =? 120) || (b =? 88))%N
               then integer_literal 16 r'
               else if (a =? 48)%N && ((b =? 111) || (b =? 79))%N
               then integer_literal 8 r'
               else if (a =? 48)%N && ((b =? 98) || (b =? 66))%N
               then integer_literal 2 r'
               else unsigned_decimal false (a :: r)
           | [] => unsigned_decimal false (a :: r)
           end
  end.

(** [Number(s)] for a string [s]. *)
Definition Number (s : string) : number := string_to_number (bytes s).

(** ** Values

    What [JSON.parse] produces, and [undefined] for a property that is not
    there.  An object is a finite map from its own keys. *)

#[warnings="-register-all"]
Inductive value :=
| Undefined
| Null
| Bool (b : bool)
| Num (n : number)
| Str (s : string)
| Arr (l : list value)
| Obj (o : gmap string value).

(** A thrown value, or the reason of a rejected promise. *)
Inductive error := Error (name message : string).

Inductive result (A : Type) :=
| Ok (a : A)
| Throw (e : error).
Arguments Ok {A} a.
Arguments Throw {A} e.

Definition result_bind {A B} (r : result A) (f : A -> result B) : result B :=
  match r with
  | Ok a => f a
  | Throw e => Throw e
  end.

Declare Scope js_scope.
Delimit Scope js_scope with js.
Notation "'let*' x := c 'in' k" := (result_bind c (fun x => k))
  (at level 10, x name, c at level 100, k at level 200) : js_scope.
Local Open Scope js_scope.

Definition TypeError (message : string) : error := Error "TypeError" message.

Definition is_zero (n : number) : bool :=
  match n with
  | Finite m _ => m =? 0
  | _ => false
  end.

Definition ToBoolean (v : value) : bool :=
  match v with
  | Undefined | Null => false
  | Bool b => b
  | Num NaN => false
  | Num n => negb (is_zero n)
  | Str s => negb (bool_decide (s = EmptyString))
  | Arr _ | Obj _ => true
  end.

(** [a || b] *)
Definition or_else (a b : value) : value := if ToBoolean a then a else b.

(** [v === p] for a primitive [p]: the same type and the same value, and no
    number equals [NaN].  Arrays and objects are compared by identity in
    JavaScript; the handler only compares with a number or a string of its
    own, which no array or object is. *)
Definition strict_equals (v p : value) : bool :=
  match v, p with
  | Undefined, Undefined | Null, Null => true
  | Bool a, Bool b => bool_decide (a = b)
  | Num x, Num y =>
      match x, y with
      | Finite m e, Finite m' e' =>
          let k := Z.min e e' in m * 2 ^ (e - k) =? m' * 2 ^ (e' - k)
      | Infinity s, Infinity s' => bool_decide (s = s')
      | _, _ => false
      end
  | Str a, Str b => bool_decide (a = b)
  | _, _ => false
  end.

(** [v.key] for the keys the handler reads, none of which names a property
    that strings, numbers, booleans, arrays or objects inherit: reading a
    property of [undefined] or [null] throws, any other value that is not an
    object with that key of its own gives [undefined]. *)
Definition Get (v : value) (key : string) : result value :=
  match v with
  | Undefined => Throw (TypeError "Cannot read properties of undefined")
  | Null => Throw (TypeError "Cannot read properties of null")
  | Obj o => Ok (default Undefined (o !! key))
  | _ => Ok Undefined
  end.

(** The array on which [forEach] or [filter] is called: on anything else the
    method is [undefined], or a value of the response that is no function. *)
Definition array_method (v : value) (method : string) : result (list value) :=
  match v with
  | Arr l => Ok l
  | Undefined | Null => Throw (TypeError "Cannot read properties of undefined")
  | _ => Throw (TypeError (method +:+ " is not a function"))
  end.

Fixpoint forEach {A} (f : string -> A -> result string) (l : list A)
    (html : string) : result string :=
  match l with
  | [] => Ok html
  | x :: l' => let* html' := f html x in forEach f l' html'
  end.

Fixpoint array_filter (p : value -> result bool) (l : list value)
    : result (list value) :=
  match l with
  | [] => Ok []
  | x :: l' =>
      let* keep := p x in
      let* r := array_filter p l' in
      Ok (if keep : bool then x :: r else r)
  end.

(** ** Bytes to text: base64 and [encodeURIComponent] *)

Definition dq : string := String (Ascii.ascii_of_N 34) EmptyString.

Definition base64_alphabet : list N :=
  bytes "ABCDEFGHIJKLMNOPQRSTUVWXYZabcdefghijklmnopqrstuvwxyz0123456789+/".

Definition base64_digit (n : N) : string :=
  String (Ascii.ascii_of_N (nth (N.to_nat n) base64_alphabet 61%N)) EmptyString.

(** [Buffer.from(s).toString("base64")] on the bytes of [s]. *)
Fixpoint base64 (l : list N) : string :=
  match l with
  | [] => EmptyString
  | [a] =>
      base64_digit (N.shiftr a 2)
      +:+ base64_digit (N.shiftl (N.land a 3) 4) +:+ "=="
  | [a; b] =>
      base64_digit (N.shiftr a 2)
      +:+ base64_digit (N.lor (N.shiftl (N.land a 3) 4) (N.shiftr b 4))
      +:+ base64_digit (N.shiftl (N.land b 15) 2) +:+ "="
  | a :: b :: c :: r =>
      base64_digit (N.shiftr a 2)
      +:+ base64_digit (N.lor (N.shiftl (N.land a 3) 4) (N.shiftr b 4))
      +:+ base64_digit (N.lor (N.shiftl (N.land b 15) 2) (N.shiftr c 6))
      +:+ base64_digit (N.land c 63)
      +:+ base64 r
  end.

Definition hex_digit (n : N) : string :=
  String (Ascii.ascii_of_N (nth (N.to_nat n) (bytes "0123456789ABCDEF") 48%N))
         EmptyString.

Definition unreserved (a : N) : bool :=
  ((48 <=? a) && (a <=? 57) || (65 <=? a) && (a <=? 90)
   || (97 <=? a) && (a <=? 122)
   || bool_decide (a ∈ bytes "-_.!~*'()"))%N.

(** [encodeURIComponent(s)]: every byte of the UTF-8 text that is not
    unreserved is escaped. *)
Fixpoint encodeURIComponent (l : list N) : string :=
  match l with
  | [] => EmptyString
  | a :: r =>
      (if unreserved a then String (Ascii.ascii_of_N a) EmptyString
       else "%" +:+ hex_digit (N.shiftr a 4) +:+ hex_digit (N.land a 15))
      +:+ encodeURIComponent r
  end.

(** ** The two versions of the handler

    The repository holds two versions of the function.  They differ in the
    time zone of [formatDate], the page size of the recordings request, the
    page around the meetings, and in how the files of a meeting are listed. *)

Inductive version := Simple | Richer.

(** *** The texts of the handler's template literals *)

(** The credentials that are base64-encoded. *)
Definition credentials (ZOOM_CLIENT_ID ZOOM_CLIENT_SECRET : string) : string :=
  ZOOM_CLIENT_ID
      +:+ ":"
      +:+ ZOOM_CLIENT_SECRET.

Definition token_url (ZOOM_ACCOUNT_ID : string) : string :=
  "https://zoom.us/oauth/token?grant_type=account_credentials&account_id="
      +:+ ZOOM_ACCOUNT_ID.

Definition basic_authorization (basic : string) : string :=
  "Basic "
      +:+ basic.

(** The recordings list of a user, already URI-encoded; the page size differs. *)
Definition recordings_url (v : version) (userId : string) : string :=
  match v with
  | Simple =>
      "https://api.zoom.us/v2/users/"
      +:+ userId
      +:+ "/recordings?page_size=100"
  | Richer =>
      "https://api.zoom.us/v2/users/"
      +:+ userId
      +:+ "/recordings?page_size=200"
  end.

Definition bearer_authorization (accessToken : string) : string :=
  "Bearer "
      +:+ accessToken.

(** The document up to and including the subtitle (and the refresh link). *)
Definition page_open (v : version) (MEETING_ID : string) : string :=
  match v with
  | Simple =>
      "
      <!DOCTYPE html>
      <html>
      <head>
        <meta charset=" +:+ dq +:+ "utf-8" +:+ dq +:+ " />
        <title>MCA Meeting Recordings</title>
        <style>
          body { font-family: system-ui, -apple-system, BlinkMacSystemFont, " +:+ dq +:+ "Segoe UI" +:+ dq +:+ ", sans-serif; margin: 2rem; background: #f5f5f5; }
          h1 { margin-bottom: 0.5rem; }
          .subtitle { margin-bottom: 1.5rem; color: #555; }
          .meeting { background: #fff; border-radius: 8px; padding: 1rem 1.25rem; margin-bottom: 1rem; box-shadow: 0 1px 3px rgba(0,0,0,0.1); }
          .date { font-weight: 600; margin-bottom: 0.25rem; }
          .topic { color: #777; margin-bottom: 0.5rem; }
          .file { margin-left: 1rem; margin-bottom: 0.25rem; }
          a { text-decoration: none; color: #2563eb; }
          a:hover { text-decoration: underline; }
        </style>
      </head>
      <body>
        <h1>MCA Meeting Recordings</h1>
        <div class=" +:+ dq +:+ "subtitle" +:+ dq +:+ ">Meeting ID: "
      +:+ MEETING_ID
      +:+ "</div>
    "
  | Richer =>
      "
      <!DOCTYPE html>
      <html>
      <head>
        <meta charset=" +:+ dq +:+ "utf-8" +:+ dq +:+ " />
        <meta name=" +:+ dq +:+ "viewport" +:+ dq +:+ " content=" +:+ dq +:+ "width=device-width, initial-scale=1" +:+ dq +:+ " />
        <title>MCA Meeting Zoom Recordings</title>
        <style>
          :root {
            color-scheme: light;
          }
          body {
            font-family: system-ui, -apple-system, BlinkMacSystemFont, " +:+ dq +:+ "Segoe UI" +:+ dq +:+ ", sans-serif;
            margin: 0;
            padding: 0;
            background: #2a28cb;
          }
          .page {
            max-width: 720px;
            margin: 0 auto;
            padding: 2rem 1.5rem;
          }
          h1 {
            margin: 0 0 0.5rem 0;
            font-size: 1.8rem;
            color: #fff;
          }
          .subtitle {
            color: #fff;
            font-size: 0.95rem;
          }
          .meeting {
            background: #ffffffc7;
            border-radius: 10px;
            padding: 1rem 1.25rem;
            margin-bottom: 1rem;
            box-shadow: 0 1px 3px rgba(0,0,0,0.1);
            border: 1px solid rgb(255 255 255);
          }
          .date {
            font-weight: 600;
            margin-bottom: 0.5rem;
            font-size: 1rem;
          }
          .file {
            margin-left: 0.75rem;
            margin-bottom: 0.25rem;
            font-size: 0.95rem;
            line-height: 1.4;
            font-weight: 500;
          }
          a {
            text-decoration: none;
            color: #0a44c4;
          }
          a:hover {
            text-decoration: underline;
          }
          .refresh {
          text-align: right;
          margin-bottom: 1.4rem;
          }
          .refresh a {
          color: #fff;
          font-size: 0.9rem;
          text-decoration: underline;
          }


          /* Mobile tweaks */
          @media (max-width: 600px) {
            .page {
              padding: 1.25rem 1rem;
            }
            h1 {
              font-size: 1.4rem;
            }
            .subtitle {
              font-size: 0.9rem;
            }
            .meeting {
              padding: 0.85rem 0.9rem;
            }
            .date {
              font-size: 1.1rem;
            }
            .file {
              font-size: 1rem;
            }
          }
        </style>
      </head>
      <body>
        <div class=" +:+ dq +:+ "page" +:+ dq +:+ ">
          <h1>MCA Meeting Zoom Recordings</h1>
          <div class=" +:+ dq +:+ "subtitle" +:+ dq +:+ ">Meeting ID: "
      +:+ MEETING_ID
      +:+ "</div>
          <div class=" +:+ dq +:+ "refresh" +:+ dq +:+ "><a href=" +:+ dq +:+ dq +:+ "><span style=" +:+ dq +:+ "font-size: 1rem;" +:+ dq +:+ ">↻</span> Refresh</a></div>

    "
  end.

Definition no_recordings : string :=
  "<p>No recordings found yet for this meeting.</p>".

(** The head of a meeting block; only the first version shows the topic. *)
Definition meeting_open (v : version) (startTime topic : string) : string :=
  match v with
  | Simple =>
      "<div class=" +:+ dq +:+ "meeting" +:+ dq +:+ ">
          <div class=" +:+ dq +:+ "date" +:+ dq +:+ ">"
      +:+ startTime
      +:+ "</div>
          <div class=" +:+ dq +:+ "topic" +:+ dq +:+ ">"
      +:+ topic
      +:+ "</div>
        "
  | Richer =>
      "<div class=" +:+ dq +:+ "meeting" +:+ dq +:+ ">
          <div class=" +:+ dq +:+ "date" +:+ dq +:+ ">"
      +:+ startTime
      +:+ "</div>
        "
  end.

(** One line per file: its link, labelled by its type (and its start in the first version). *)
Definition file_entry (v : version) (play_url label recStart : string) : string :=
  match v with
  | Simple =>
      "<div class=" +:+ dq +:+ "file" +:+ dq +:+ ">
              â€¢ <a href=" +:+ dq
      +:+ play_url
      +:+ dq +:+ " target=" +:+ dq +:+ "_blank" +:+ dq +:+ " rel=" +:+ dq +:+ "noopener noreferrer" +:+ dq +:+ ">
                "
      +:+ label
      +:+ " ("
      +:+ recStart
      +:+ ")
              </a>
            </div>"
  | Richer =>
      "<div class=" +:+ dq +:+ "file" +:+ dq +:+ ">
              • <a href=" +:+ dq
      +:+ play_url
      +:+ dq +:+ " target=" +:+ dq +:+ "_blank" +:+ dq +:+ " rel=" +:+ dq +:+ "noopener noreferrer" +:+ dq +:+ ">
                "
      +:+ label
      +:+ "
              </a>
            </div>"
  end.

Definition meeting_close : string :=
  "</div>".

(** The end of the document. *)
Definition page_close (v : version) : string :=
  match v with
  | Simple =>
      "</body></html>"
  | Richer =>
      "
        </div>
      </body>
      </html>
    "
  end.


(** *** What the handler exchanges with the outside *)

Record request := {
  method : string;
  url : string;
  authorization : string
}.

(** A response of [fetch]: its status, and what reading its body as text or
    as JSON gives (a handler reads a body once, one way). *)
Record response := {
  status : Z;
  text : result string;
  json : result value
}.

Definition ok (r : response) : bool := (200 <=? status r) && (status r <=? 299).

Record http_response := {
  statusCode : Z;
  headers : option (list (string * string));
  body : string
}.

Inductive logged :=
| LogText (s : string)
| LogStatus (n : Z)
| LogError (e : error).

Inductive event :=
| Fetched (r : request)
| ConsoleError (args : list logged).

(** A computation of the handler: the events so far, and a value or the
    error thrown (a rejected promise that is awaited throws its reason). *)
Definition M (A : Type) : Type := (list event * result A)%type.

Definition ret {A} (a : A) : M A := ([], Ok a).

Definition bind {A B} (m : M A) (f : A -> M B) : M B :=
  match m with
  | (t, Ok a) => let (t', r) := f a in (t ++ t', r)
  | (t, Throw e) => (t, Throw e)
  end.

Definition lift {A} (r : result A) : M A := ([], r).

Definition console_error (args : list logged) : M unit :=
  ([ConsoleError args], Ok tt).

Notation "'do' x <- c ; k" := (bind c (fun x => k))
  (at level 10, x name, c at level 100, k at level 200) : js_scope.

(** A variable of [process.env]: a string, or [undefined]. *)
Definition falsy (x : option string) : bool :=
  match x with
  | Some s => bool_decide (s = EmptyString)
  | None => true
  end.

Definition text_of (x : option string) : string := default "undefined" x.

Definition Number_of (x : option string) : number :=
  match x with
  | Some s => Number s
  | None => NaN
  end.

Definition missing_env_vars : string :=
  "Missing env vars. Set ZOOM_ACCOUNT_ID, ZOOM_CLIENT_ID, ZOOM_CLIENT_SECRET, MEETING_ID in Netlify.".

Definition timeZone (v : version) : string :=
  match v with
  | Simple => "America/Los_Angeles"
  | Richer => "America/Mexico_City"
  end.

(** [order[key] || 99] for [const order = { MP4: 1, M4A: 2 }].  A key that
    [order] does not have is looked up in [Object.prototype]: for these
    names the result is a function (an object for [__proto__]), which is
    truthy and no number; [None] stands for it. *)
Definition inherited : list string :=
  [ "constructor"; "hasOwnProperty"; "isPrototypeOf"; "propertyIsEnumerable";
    "toLocaleString"; "toString"; "valueOf"; "__proto__";
    "__defineGetter__"; "__defineSetter__"; "__lookupGetter__";
    "__lookupSetter__" ].

Definition order_or_99 (key : string) : option Z :=
  if bool_decide (key = "MP4") then Some 1
  else if bool_decide (key = "M4A") then Some 2
  else if bool_decide (key ∈ inherited) then None
  else Some 99.

(** What the handler takes from the platform, besides the network. *)
Class Platform := {
  (** [Number.prototype.toString]: the shortest decimal text of a number. *)
  Number_toString : number -> string;
  (** [new Date(x).toLocaleString("en-US", options)] with the options of
      [formatDate] and the given time zone: the platform's calendar and time
      zone data decide the text; it throws when [x] is an object that cannot
      be converted to a primitive. *)
  Date_toLocaleString : string -> value -> result string
}.

Section Handler.

Context {platform : Platform}.

(** The text of a value in a template literal, and as a property key.  An
    array joins the texts of its elements; an object parsed from JSON with a
    key [toString] of its own (which is no function) has no primitive. *)
Fixpoint ToString (v : value) : result string :=
  match v with
  | Undefined => Ok "undefined"
  | Null => Ok "null"
  | Bool b => Ok (if b then "true" else "false")
  | Num n => Ok (Number_toString n)
  | Str s => Ok s
  | Arr l =>
      (fix join (l : list value) : result string :=
         match l with
         | [] => Ok EmptyString
         | x :: l' =>
             let* s := match x with
                       | Undefined | Null => Ok EmptyString
                       | _ => ToString x
                       end in
             match l' with
             | [] => Ok s
             | _ => let* t := join l' in Ok (s +:+ "," +:+ t)
             end
         end) l
  | Obj o =>
      match o !! "toString" with
      | Some _ => Throw (TypeError "Cannot convert object to primitive value")
      | None => Ok "[object Object]"
      end
  end.

Definition formatDate (v : version) (isoString : value) : result string :=
  if negb (ToBoolean isoString) then Ok EmptyString
  else Date_toLocaleString (timeZone v) isoString.

(** The comparison function of [files.sort]: the difference of the two
    ranks, [None] when it is [NaN]. *)
Definition compare_files (a b : value) : result (option Z) :=
  let* ta := Get a "file_type" in
  let* ka := ToString ta in
  let* tb := Get b "file_type" in
  let* kb := ToString tb in
  Ok (match order_or_99 ka, order_or_99 kb with
      | Some x, Some y => Some (x - y)
      | _, _ => None
      end).

(** [Array.prototype.sort] with that comparison function.  The sort is
    stable, and a result of the comparison that is [NaN] counts as zero.
    When the comparison function is a consistent ordering, ECMAScript fixes
    the result, which this insertion sort computes; otherwise the order is
    left to the implementation.  An array of one element is not compared. *)
Fixpoint insert (a : value) (sorted : list value) : result (list value) :=
  match sorted with
  | [] => Ok [a]
  | b :: l =>
      let* c := compare_files a b in
      if match c with Some z => 0 <? z | None => false end
      then let* r := insert a l in Ok (b :: r)
      else Ok (a :: sorted)
  end.

Fixpoint array_sort (l : list value) : result (list value) :=
  match l with
  | [] => Ok []
  | a :: l' => let* sorted := array_sort l' in insert a sorted
  end.

(** The body of [files.forEach] (of [recording_files.forEach] in the first
    version), [html] being the page so far. *)
Definition list_file (v : version) (html : string) (file : value)
    : result string :=
  let* play_url := Get file "play_url" in
  if ToBoolean play_url then
    match v with
    | Simple =>
        let* file_type := Get file "file_type" in
        let type := or_else file_type (Str "Recording") in
        let* recording_start := Get file "recording_start" in
        let* recStart := formatDate v recording_start in
        let* play_url := ToString play_url in
        let* type := ToString type in
        Ok (html +:+ file_entry v play_url type recStart)
    | Richer =>
        let* label := Get file "file_type" in
        let label := if strict_equals label (Str "MP4") then Str "VIDEO"
                     else label in
        let label := if strict_equals label (Str "M4A") then Str "AUDIO"
                     else label in
        let* play_url := ToString play_url in
        let* label := ToString label in
        Ok (html +:+ file_entry v play_url label EmptyString)
    end
  else Ok html.

(** The callback of the [filter] that leaves out SUMMARY and CHAT files. *)
Definition not_summary_or_chat (file : value) : result bool :=
  let* file_type := Get file "file_type" in
  if strict_equals file_type (Str "SUMMARY") then Ok false
  else
    let* file_type := Get file "file_type" in
    Ok (negb (strict_equals file_type (Str "CHAT"))).

(** The body of [filtered.forEach]. *)
Definition list_meeting (v : version) (html : string) (meeting : value)
    : result string :=
  let* start_time := Get meeting "start_time" in
  let* startTime := formatDate v start_time in
  match v with
  | Simple =>
      let* topic := Get meeting "topic" in
      let topic := or_else topic (Str "MCA Meeting") in
      let* topic := ToString topic in
      let html := html +:+ meeting_open v startTime topic in
      let* recording_files := Get meeting "recording_files" in
      let* files := array_method (or_else recording_files (Arr [])) "forEach" in
      let* html := forEach (list_file v) files html in
      Ok (html +:+ meeting_close)
  | Richer =>
      let html := html +:+ meeting_open v startTime EmptyString in
      let* recording_files := Get meeting "recording_files" in
      let* files := array_method (or_else recording_files (Arr [])) "filter" in
      let* files := array_filter not_summary_or_chat files in
      let* files := array_sort files in
      let* html := forEach (list_file v) files html in
      Ok (html +:+ meeting_close)
  end.

(** Step 3 of the handler: the page for the meetings that were kept. *)
Definition build_html (v : version) (MEETING_ID : string)
    (filtered : list value) : result string :=
  let html := page_open v MEETING_ID in
  let* html := if (length filtered =? 0)%nat
               then Ok (html +:+ no_recordings)
               else forEach (list_meeting v) filtered html in
  Ok (html +:+ page_close v).

(** The callback of [meetings.filter]. *)
Definition is_the_meeting (meetingIdNumber : number) (m : value) : result bool :=
  let* id := Get m "id" in
  Ok (strict_equals id (Num meetingIdNumber)).

Section Invocation.

(** The environment of the process and the network of one invocation. *)
Variable env : gmap string string.
Variable net : request -> result response.

Definition fetch (r : request) : M response := ([Fetched r], net r).

Definition failure (message : string) : http_response :=
  {| statusCode := 500; headers := None; body := message |}.

(** The first request: the token of the account, by its client credentials. *)
Definition token_request : request :=
  let basic :=
    base64 (bytes (credentials (text_of (env !! "ZOOM_CLIENT_ID"))
                               (text_of (env !! "ZOOM_CLIENT_SECRET")))) in
  {| method := "POST";
     url := token_url (text_of (env !! "ZOOM_ACCOUNT_ID"));
     authorization := basic_authorization basic |}.

(** The second request: the recordings of the user, with the token. *)
Definition recordings_request (v : version) (accessToken : string) : request :=
  let userId := if falsy (env !! "ZOOM_USER_ID") then "me"
                else text_of (env !! "ZOOM_USER_ID") in
  {| method := "GET";
     url := recordings_url v (encodeURIComponent (bytes userId));
     authorization := bearer_authorization accessToken |}.

(** The [try] block. *)
Definition handler_try (v : version) : M http_response :=
  let ZOOM_ACCOUNT_ID := env !! "ZOOM_ACCOUNT_ID" in
  let ZOOM_CLIENT_ID := env !! "ZOOM_CLIENT_ID" in
  let ZOOM_CLIENT_SECRET := env !! "ZOOM_CLIENT_SECRET" in
  let MEETING_ID := env !! "MEETING_ID" in
  if falsy ZOOM_ACCOUNT_ID || falsy ZOOM_CLIENT_ID
     || falsy ZOOM_CLIENT_SECRET || falsy MEETING_ID
  then ret (failure missing_env_vars)
  else
    do tokenRes <- fetch token_request;
    if negb (ok tokenRes) then
      do text <- lift (text tokenRes);
      do _ <- console_error [LogText "Error getting Zoom token:";
                             LogStatus (status tokenRes); LogText text];
      ret (failure "Failed to get Zoom token.")
    else
      do tokenData <- lift (json tokenRes);
      do accessToken <- lift (Get tokenData "access_token");
      do accessToken <- lift (ToString accessToken);
      do recRes <- fetch (recordings_request v accessToken);
      if negb (ok recRes) then
        do text <- lift (text recRes);
        do _ <- console_error [LogText "Error fetching recordings:";
                               LogStatus (status recRes); LogText text];
        ret (failure "Failed to fetch recordings from Zoom.")
      else
        do recData <- lift (json recRes);
        do meetings <- lift (Get recData "meetings");
        let meetings := or_else meetings (Arr []) in
        let meetingIdNumber := Number_of MEETING_ID in
        do meetings <- lift (array_method meetings "filter");
        do filtered <- lift (array_filter (is_the_meeting meetingIdNumber)
                                          meetings);
        do html <- lift (build_html v (text_of MEETING_ID) filtered);
        ret {| statusCode := 200;
               headers := Some [("Content-Type", "text/html; charset=utf-8")];
               body := html |}.

(** [exports.handler]: the events of the invocation and the response that
    the returned promise resolves to. *)
Definition handler (v : version) : list event * http_response :=
  match handler_try v with
  | (t, Ok r) => (t, r)
  | (t, Throw err) =>
      (t ++ [ConsoleError [LogText "Unhandled error:"; LogError err]],
       failure "Unexpected error loading recordings.")
  end.

End Invocation.

End Handler.

(** ** What the properties speak of *)

(** The requests of an invocation, in order. *)
Definition fetches (t : list event) : list request :=
  omap (fun e => match e with Fetched r => Some r | _ => None end) t.

(** One of the four required variables is absent or empty. *)
Definition missing (env : gmap string string) : bool :=
  falsy (env !! "ZOOM_ACCOUNT_ID") || falsy (env !! "ZOOM_CLIENT_ID")
  || falsy (env !! "ZOOM_CLIENT_SECRET") || falsy (env !! "MEETING_ID").

(** Both requests of an invocation succeed: the token response is 2xx with
    a JSON body that has properties, the text of its [access_token] makes the
    recordings request, and the recordings response is 2xx with a JSON body
    whose [meetings] are the array [meetings] (the empty one when the body
    has no [meetings]). *)
Variant upstream {platform : Platform} (env : gmap string string)
    (net : request -> result response) (v : version) (meetings : list value)
    : Prop :=
| upstream_intro (tokenRes : response) (tokenData accessToken : value)
    (bearer : string) (recRes : response) (recData listed : value) :
    net (token_request env) = Ok tokenRes ->
    ok tokenRes = true ->
    json tokenRes = Ok tokenData ->
    Get tokenData "access_token" = Ok accessToken ->
    ToString accessToken = Ok bearer ->
    net (recordings_request env v bearer) = Ok recRes ->
    ok recRes = true ->
    json recRes = Ok recData ->
    Get recData "meetings" = Ok listed ->
    array_method (or_else listed (Arr [])) "filter" = Ok meetings ->
    upstream env net v meetings.

(** The response with a page. *)
Definition page (html : string) : http_response :=
  {| statusCode := 200;
     headers := Some [("Content-Type", "text/html; charset=utf-8")];
     body := html |}.

(** A file without a playable URL: [file.play_url] is read and is falsy. *)
Definition lacks_url (file : value) : bool :=
  match Get file "play_url" with
  | Ok play_url => negb (ToBoolean play_url)
  | Throw _ => false
  end.

(** A meeting whose [id] is strictly equal to the number [n]. *)
Definition has_id (n : number) (m : value) : bool :=
  match Get m "id" with
  | Ok id => strict_equals id (Num n)
  | Throw _ => false
  end.

(** [undefined] and [null], whose properties cannot be read. *)
Definition nullish (v : value) : bool :=
  match v with
  | Undefined | Null => true
  | _ => false
  end.

(** A file whose type is SUMMARY or CHAT. *)
Definition summary_or_chat (file : value) : bool :=
  match Get file "file_type" with
  | Ok file_type => strict_equals file_type (Str "SUMMARY")
                    || strict_equals file_type (Str "CHAT")
  | Throw _ => false
  end.

(** The label that the page shows for a type. *)
Definition label_of (file_type : string) : string :=
  if bool_decide (file_type = "MP4") then "VIDEO"
  else if bool_decide (file_type = "M4A") then "AUDIO"
  else file_type.

(** The rank of a file in the comparison function of the sort, when it has
    one: its type has a text, which is no inherited name. *)
Definition file_rank {platform : Platform} (file : value) : option Z :=
  match Get file "file_type" with
  | Ok file_type =>
      match ToString file_type with
      | Ok key => order_or_99 key
      | Throw _ => None
      end
  | Throw _ => None
  end.

(** The files of rank [r], in the order of [files]. *)
Definition of_rank {platform : Platform} (r : Z) (files : list value)
    : list value :=
  List.filter (fun file => bool_decide (file_rank file = Some r)) files.

(** The order of the files as the specification words it: rank 1 for MP4,
    2 for M4A and 99 for every other type, each rank in its original order. *)
Definition claimed_rank (file_type : string) : Z :=
  if bool_decide (file_type = "MP4") then 1
  else if bool_decide (file_type = "M4A") then 2
  else 99.

Definition claimed_order (files : list value) : list value :=
  let ranked r file :=
    match Get file "file_type" with
    | Ok (Str t) => bool_decide (claimed_rank t = r)
    | _ => false
    end in
  List.filter (ranked 1) files ++ List.filter (ranked 2) files
  ++ List.filter (ranked 99) files.

(** The rational that a finite number stands for. *)
Definition rational (m e : Z) : Q := (inject_Z m * Qpower (2 # 1) e)%Q.

(** Equality of numbers as numbers: no [NaN], the same infinity or the
    same rational. *)
Definition same_number (x y : number) : Prop :=
  match x, y with
  | Finite m e, Finite m' e' => (rational m e == rational m' e')%Q
  | Infinity s, Infinity s' => s = s'
  | _, _ => False
  end.

(** The subtitle of the page, in either version. *)
Definition subtitle (MEETING_ID : string) : string :=
  "<div class=" +:+ dq +:+ "subtitle" +:+ dq +:+ ">Meeting ID: "
  +:+ MEETING_ID +:+ "</div>".

(** The tag that opens a meeting block, and the one that opens a file line. *)
Definition meeting_tag : string :=
  "<div class=" +:+ dq +:+ "meeting" +:+ dq +:+ ">".

Definition file_tag : string :=
  "<div class=" +:+ dq +:+ "file" +:+ dq +:+ ">".

(** How many times [p] occurs in [s]. *)
Fixpoint occurrences (p s : string) : nat :=
  match s with
  | EmptyString => 0
  | String _ s' => ((if String.prefix p s then 1 else 0) + occurrences p s')%nat
  end.

(** [s] occurs in [t]. *)
Definition occurs_in (s t : string) : Prop :=
  exists before after, t = before +:+ s +:+ after.

(** A callback of [forEach] that only appends to the page. *)
Definition appends {A} (f : string -> A -> result string) : Prop :=
  forall html x, f html x = (let* b := f EmptyString x in Ok (html +:+ b)).

(** The blocks of a page, one after the other. *)
Definition blocks_text (blocks : list string) : string :=
  foldr String.append EmptyString blocks.

(** The texts of the four failures. *)
Definition failure_texts : list string :=
  [ missing_env_vars; "Failed to get Zoom token.";
    "Failed to fetch recordings from Zoom.";
    "Unexpected error loading recordings." ].

(** *** Data of the examples *)

Definition object (l : list (string * value)) : value := Obj (list_to_map l).

(** A complete configuration with the given [MEETING_ID]. *)
Definition configured (MEETING_ID : string) : gmap string string :=
  list_to_map [ ("ZOOM_ACCOUNT_ID", "account"); ("ZOOM_CLIENT_ID", "client");
                ("ZOOM_CLIENT_SECRET", "secret"); ("MEETING_ID", MEETING_ID) ].

(** Zoom answering both requests: a token, then the given [meetings]. *)
Definition zoom (meetings : value) (r : request) : result response :=
  if bool_decide (method r = "POST")
  then Ok {| status := 200; text := Ok EmptyString;
             json := Ok (object [("access_token", Str "token")]) |}
  else Ok {| status := 200; text := Ok EmptyString;
             json := Ok (object [("meetings", meetings)]) |}.

Definition meeting_with_id (id : string) : value :=
  object [("id", Num (Number id))].

Definition file (file_type : string) (play_url : option string) : value :=
  object (("file_type", Str file_type)
          :: match play_url with
             | Some u => [("play_url", Str u)]
             | None => []
             end).

(** A meeting with an id and a topic, as two sessions of a recurring
    meeting have them. *)
Definition session (id topic : string) : value :=
  object [("id", Num (Number id)); ("topic", Str topic)].

(** No network: every request fails. *)
Definition offline (r : request) : result response :=
  Throw (TypeError "fetch failed").

(** Zoom refusing the token with a 401 whose body cannot be read. *)
Definition unreadable_401 (r : request) : result response :=
  Ok {| status := 401;
        text := Throw (TypeError "terminated");
        json := Throw (TypeError "terminated") |}.

(** The platform that the examples run with; the properties hold for any. *)
Definition example_platform : Platform :=
  {| Number_toString := fun _ => "0";
     Date_toLocaleString := fun _ _ => Ok "Invalid Date" |}.

(** *** What the further properties speak of *)

(** The calls of [console.error] in an invocation. *)
Definition logged_errors (t : list event) : nat :=
  length (List.filter (fun e => match e with
                                | ConsoleError _ => true
                                | Fetched _ => false
                                end) t).


(** Zoom granting a token and refusing the recordings with a 403. *)
Definition zoom_forbidden (r : request) : result response :=
  if bool_decide (method r = "POST")
  then Ok {| status := 200; text := Ok EmptyString;
             json := Ok (object [("access_token", Str "token")]) |}
  else Ok {| status := 403; text := Ok "Forbidden"; json := Ok Null |}.

(** Zoom answering the token request with a body that has no token, and the
    recordings request with the given body. *)
Definition zoom_without_token (recData : value) (r : request)
    : result response :=
  if bool_decide (method r = "POST")
  then Ok {| status := 200; text := Ok EmptyString; json := Ok (object []) |}
  else Ok {| status := 200; text := Ok EmptyString; json := Ok recData |}.

(** Zoom answering the recordings request with the given body. *)
Definition zoom_body (recData : value) (r : request) : result response :=
  if bool_decide (method r = "POST")
  then Ok {| status := 200; text := Ok EmptyString;
             json := Ok (object [("access_token", Str "token")]) |}
  else Ok {| status := 200; text := Ok EmptyString; json := Ok recData |}.

(** A byte that [encodeURIComponent] can produce: an unreserved one or the
    percent sign. *)
Definition url_safe (a : N) : bool := unreserved a || (a =? 37)%N.

(** Both requests succeed and the body of the recordings response is the
    JSON value [recData]. *)
Variant recordings_body {platform : Platform} (env : gmap string string)
    (net : request -> result response) (v : version) (recData : value)
    : Prop :=
| recordings_body_intro (tokenRes : response) (tokenData accessToken : value)
    (bearer : string) (recRes : response) :
    net (token_request env) = Ok tokenRes ->
    ok tokenRes = true ->
    json tokenRes = Ok tokenData ->
    Get tokenData "access_token" = Ok accessToken ->
    ToString accessToken = Ok bearer ->
    net (recordings_request env v bearer) = Ok recRes ->
    ok recRes = true ->
    json recRes = Ok recData ->
    recordings_body env net v recData.


Definition digit_bytes (ds : list N) : list N := map (N.add 48) ds.

(** A byte of ASCII that is no white space. *)
Definition plain (a : N) : Prop := (32 < a)%N /\ (a < 128)%N.

(** A file whose type can be turned into a key of the ranks. *)
Definition type_has_text {platform : Platform} (file : value) : Prop :=
  exists file_type key,
    Get file "file_type" = Ok file_type /\ ToString file_type = Ok key.

(** A file as Zoom describes it, for the second version: its type is a
    string that is no inherited name, and its URL is missing, falsy or a
    string. *)
Definition described (file : value) : Prop :=
  exists t, Get file "file_type" = Ok (Str t)
            /\ (t ∉ inherited)
            /\ (lacks_url file = true
                \/ exists u, Get file "play_url" = Ok (Str u)
                             /\ u <> EmptyString).

(** The line of a described file in the second version. *)
Definition richer_line (file : value) : string :=
  match Get file "play_url", Get file "file_type" with
  | Ok (Str u), Ok (Str t) =>
      if bool_decide (u = EmptyString) then EmptyString
      else file_entry Richer u (label_of t) EmptyString
  | _, _ => EmptyString
  end.

(** The line of a file in the first version, [stamp] giving the text of its
    recording start. *)
Definition simple_line (stamp : value -> string) (file : value) : string :=
  match Get file "play_url", Get file "file_type" with
  | Ok (Str u), Ok file_type =>
      if bool_decide (u = EmptyString) then EmptyString
      else file_entry Simple u
             (match file_type with
              | Str t => if bool_decide (t = EmptyString) then "Recording"
                         else t
              | _ => "Recording"
              end)
             (stamp file)
  | _, _ => EmptyString
  end.

(** Reading base64 back: the value of a character of the alphabet, and the
    bytes of a text of groups of four characters. *)
Definition base64_value (c : N) : N :=
  (if (65 <=? c) && (c <=? 90) then c - 65
   else if (97 <=? c) && (c <=? 122) then c - 71
   else if (48 <=? c) && (c <=? 57) then c + 4
   else if c =? 43 then 62
   else if c =? 47 then 63
   else 0)%N.

Fixpoint base64_decode (l : list N) : list N :=
  match l with
  | c1 :: c2 :: c3 :: c4 :: r =>
      let first := N.lor (N.shiftl (base64_value c1) 2)
                         (N.shiftr (base64_value c2) 4) in
      let second := N.lor (N.shiftl (N.land (base64_value c2) 15) 4)
                          (N.shiftr (base64_value c3) 2) in
      let third := N.lor (N.shiftl (N.land (base64_value c3) 3) 6)
                         (base64_value c4) in
      if (c3 =? 61)%N then [first]
      else if (c4 =? 61)%N then [first; second]
      else first :: second :: third :: base64_decode r
  | _ => []
  end.

(** The character of a value in the alphabet. *)
Definition letter (n : N) : N := nth (N.to_nat n) base64_alphabet 61%N.

(** What reading back asks of the first two bytes of a group, and of its
    last two: the characters are no padding and their values give the bits
    back. *)
Definition reads_back_12 (a b : N) : bool :=
  let c1 := letter (N.shiftr a 2) in
  let c2 := letter (N.lor (N.shiftl (N.land a 3) 4) (N.shiftr b 4)) in
  ((N.lor (N.shiftl (base64_value c1) 2) (N.shiftr (base64_value c2) 4) =? a)
   && (N.land (base64_value c2) 15 =? N.shiftr b 4)
   && negb (c1 =? 61) && negb (c2 =? 61))%N.

Definition reads_back_23 (b c : N) : bool :=
  let c3 := letter (N.lor (N.shiftl (N.land b 15) 2) (N.shiftr c 6)) in
  let c4 := letter (N.land c 63) in
  ((N.lor (N.shiftl (N.shiftr b 4) 4) (N.shiftr (base64_value c3) 2) =? b)
   && (N.lor (N.shiftl (N.land (base64_value c3) 3) 6) (base64_value c4) =? c)
   && negb (c3 =? 61) && negb (c4 =? 61))%N.

(** The bytes [0] to [255]. *)
Definition all_bytes : list N := map N.of_nat (seq 0 256).

(** A meeting of the examples with five files, two of them without URL. *)
Definition recorded_meeting : value :=
  object [("id", Num (Number "222"));
          ("recording_files",
           Arr [file "CHAT" None; file "M4A" (Some "u1");
                file "SUMMARY" (Some "u4"); file "MP4" (Some "u2");
                file "TRANSCRIPT" (Some "u3")])].

(** ** Tactics *)

(** Unfolds the handler down to the results of its steps. *)
Ltac run_handler :=
  unfold handler, handler_try, bind, lift, fetch, ret, console_error.

(** Cases on the scrutinee of an innermost [match] of the goal. *)
Ltac case_goal :=
  match goal with
  | |- context [match ?x with _ => _ end] =>
      lazymatch x with
      | context [match _ with _ => _ end] => fail
      | _ => destruct x eqn:?; simpl
      end
  end.

(** Cases on the scrutinee of an innermost [match] of the hypothesis [H]. *)
Ltac case_step H :=
  match type of H with
  | context [match ?x with _ => _ end] =>
      lazymatch x with
      | context [match _ with _ => _ end] => fail
      | _ => destruct x eqn:?; simpl in H; try discriminate H
      end
  end.

(** The files of [H], all of rank [r], have a rank within the bound. *)
Ltac ranked H r :=
  eapply List.Forall_impl; [|exact H];
  let b := fresh "b" in let Hb := fresh "Hb" in
  intros b Hb; exists r; split; [exact Hb|lia].

(** The texts of the page stay folded in the proofs. *)
#[local] Arguments page_open : simpl never.
#[local] Arguments page_close : simpl never.
#[local] Arguments meeting_open : simpl never.
#[local] Arguments file_entry : simpl never.
#[local] Arguments of_rank : simpl never.

(** ** Properties *)

(** *** Configuration *)

Section Configuration.

Context {platform : Platform}.

Lemma falsy_spec (x : option string) :
  falsy x = true <-> x = None \/ x = Some EmptyString.
Proof.
  destruct x as [s|]; simpl.
  - rewrite bool_decide_eq_true. split.
    + intros ->. now right.
    + intros [H|H]; congruence.
  - split; auto.
Qed.

(** C1. When one of ZOOM_ACCOUNT_ID, ZOOM_CLIENT_ID, ZOOM_CLIENT_SECRET and
    MEETING_ID is absent from the environment or is the empty string, whichever
    it is, the handler (either version) answers 500 with the fixed text that
    names the four variables, and the invocation has no event at all: no
    request, neither for the token nor for the recordings. *)
Theorem missing_configuration (env : gmap string string)
    (net : request -> result response) (v : version) (name : string) :
  name ∈ ["ZOOM_ACCOUNT_ID"; "ZOOM_CLIENT_ID"; "ZOOM_CLIENT_SECRET";
          "MEETING_ID"] ->
  env !! name = None \/ env !! name = Some EmptyString ->
  handler env net v =
    ([], {| statusCode := 500;
            headers := None;
            body := "Missing env vars. Set ZOOM_ACCOUNT_ID, ZOOM_CLIENT_ID, ZOOM_CLIENT_SECRET, MEETING_ID in Netlify." |}).
Proof.
  intros Hname Hmissing. apply falsy_spec in Hmissing.
  unfold handler, handler_try.
  repeat (apply elem_of_cons in Hname as [-> | Hname]);
    [ | | | | now apply elem_of_nil in Hname ];
    rewrite Hmissing, ?orb_true_r; reflexivity.
Qed.

End Configuration.

(** The configuration of the examples without its MEETING_ID, and with an
    empty ZOOM_CLIENT_ID. *)
Lemma missing_configuration_example :
  handler (platform := example_platform)
    (delete "MEETING_ID" (configured "222")) (zoom (Arr [])) Richer
  = ([], failure missing_env_vars)
  /\ handler (platform := example_platform)
       (<["ZOOM_CLIENT_ID" := EmptyString]> (configured "222")) (zoom (Arr []))
       Simple
     = ([], failure missing_env_vars).
Proof.
  split.
  - apply (missing_configuration (platform := example_platform)
             _ _ _ "MEETING_ID").
    + rewrite !elem_of_cons. tauto.
    + left. reflexivity.
  - apply (missing_configuration (platform := example_platform)
             _ _ _ "ZOOM_CLIENT_ID").
    + rewrite !elem_of_cons. tauto.
    + right. reflexivity.
Defined.

(** *** The token request *)

Section TokenRequest.

Context {platform : Platform}.

(** C2, as the code has it.  With a complete configuration and a token
    response whose status is not 2xx, the only request of the invocation is
    the token POST (no recordings GET is issued) and the answer is a 500; its
    text is the token failure text when the body of the response can be
    read, and the text of the catch-all when reading it fails. *)
Theorem token_failure (env : gmap string string)
    (net : request -> result response) (v : version) (tokenRes : response) :
  missing env = false ->
  net (token_request env) = Ok tokenRes ->
  ok tokenRes = false ->
  fetches (handler env net v).1 = [token_request env]
  /\ method (token_request env) = "POST"
  /\ statusCode (handler env net v).2 = 500
  /\ (forall s, text tokenRes = Ok s ->
        (handler env net v).2 = failure "Failed to get Zoom token.")
  /\ (forall e, text tokenRes = Throw e ->
        (handler env net v).2 = failure "Unexpected error loading recordings.").
Proof.
  unfold missing. intros Hconf Hnet Hok. run_handler.
  rewrite Hconf, Hnet, Hok. simpl.
  destruct (text tokenRes) as [s|e] eqn:Htext; simpl;
    repeat split; intros; congruence.
Qed.

End TokenRequest.

(** A 401 with a readable body, in both versions. *)
Lemma token_failure_example :
  let net := fun _ => Ok {| status := 401; text := Ok "Unauthorized";
                            json := Ok Null |} in
  (handler (platform := example_platform) (configured "222") net Simple).2
    = failure "Failed to get Zoom token."
  /\ (handler (platform := example_platform) (configured "222") net Richer).2
    = failure "Failed to get Zoom token.".
Proof.
  split.
  - eapply (token_failure (platform := example_platform)
              (configured "222") _ Simple); reflexivity.
  - eapply (token_failure (platform := example_platform)
              (configured "222") _ Richer); reflexivity.
Defined.

(** C2 as stated fails: a token response with status 401 whose body cannot
    be read is answered with the text of the catch-all, not with the token
    failure text, in both versions. *)
Lemma token_failure_body_unreadable :
  (ok {| status := 401; text := Throw (TypeError "terminated");
         json := Throw (TypeError "terminated") |} = false
   /\ unreadable_401 (token_request (configured "222"))
      = Ok {| status := 401; text := Throw (TypeError "terminated");
              json := Throw (TypeError "terminated") |})
  /\ (body (handler (platform := example_platform) (configured "222")
              unreadable_401 Simple).2
      = "Unexpected error loading recordings."
      /\ body (handler (platform := example_platform) (configured "222")
                 unreadable_401 Simple).2
         <> "Failed to get Zoom token.")
  /\ (body (handler (platform := example_platform) (configured "222")
              unreadable_401 Richer).2
      = "Unexpected error loading recordings."
      /\ body (handler (platform := example_platform) (configured "222")
                 unreadable_401 Richer).2
         <> "Failed to get Zoom token.").
Proof.
  repeat split; try reflexivity; vm_compute; discriminate.
Qed.

(** *** Timestamps *)

Section Timestamps.

Context {platform : Platform}.

(** C6. For an input that is falsy (the empty string, [undefined], [null],
    and also [false], zero and [NaN]), [formatDate] returns the empty string
    in either version: it returns, it does not throw, and the platform's
    date formatting is not consulted. *)
Theorem formatDate_falsy (v : version) (isoString : value) :
  ToBoolean isoString = false ->
  formatDate v isoString = Ok EmptyString.
Proof.
  intros Hfalsy. unfold formatDate. rewrite Hfalsy. reflexivity.
Qed.

End Timestamps.

(** The empty string and a missing start time. *)
Lemma formatDate_falsy_example :
  formatDate (platform := example_platform) Simple (Str EmptyString)
    = Ok EmptyString
  /\ formatDate (platform := example_platform) Richer Undefined
    = Ok EmptyString.
Proof.
  split.
  - apply (formatDate_falsy (platform := example_platform)). reflexivity.
  - apply (formatDate_falsy (platform := example_platform)). reflexivity.
Defined.

(** *** Files without a playable URL *)

Section PlayableUrl.

Context {platform : Platform}.

Lemma list_file_lacks_url (v : version) (html : string) (file : value) :
  lacks_url file = true -> list_file v html file = Ok html.
Proof.
  unfold lacks_url, list_file. intros H.
  destruct (Get file "play_url") as [play_url|e]; [|discriminate]. simpl.
  apply negb_true_iff in H. rewrite H. reflexivity.
Qed.

(** C5. In both versions a file without a playable URL (its [play_url] is
    absent or falsy) adds nothing to the page, whatever its type: the
    callback leaves the page as it is, and listing an array of files gives
    the same page as listing only those of its files that have a URL. *)
Theorem no_url_no_entry (v : version) :
  (forall file html, lacks_url file = true -> list_file v html file = Ok html)
  /\ (forall files html,
        forEach (list_file v) files html
        = forEach (list_file v)
            (List.filter (fun file => negb (lacks_url file)) files) html).
Proof.
  split.
  - intros file html. apply list_file_lacks_url.
  - induction files as [|file files IH]; intros html; simpl.
    + reflexivity.
    + destruct (lacks_url file) eqn:Hurl; simpl.
      * rewrite list_file_lacks_url by assumption. simpl. apply IH.
      * destruct (list_file v html file) as [html'|e]; simpl; [apply IH|reflexivity].
Qed.

End PlayableUrl.

(** An MP4 without URL between two files with one, in both versions. *)
Lemma no_url_no_entry_example :
  let files := [file "M4A" (Some "u1"); file "MP4" None;
                file "MP4" (Some "u2")] in
  forEach (list_file (platform := example_platform) Simple) files EmptyString
  = forEach (list_file (platform := example_platform) Simple)
      [file "M4A" (Some "u1"); file "MP4" (Some "u2")] EmptyString
  /\ forEach (list_file (platform := example_platform) Richer) files EmptyString
     = Ok (file_entry Richer "u1" "AUDIO" EmptyString
           +:+ file_entry Richer "u2" "VIDEO" EmptyString).
Proof.
  split.
  - apply (proj2 (no_url_no_entry (platform := example_platform) Simple)).
  - reflexivity.
Defined.

(** *** The files of a meeting in the second version *)

Section Files.

Context {platform : Platform}.

Lemma compare_files_ranked (a b : value) (ra rb : Z) :
  file_rank a = Some ra -> file_rank b = Some rb ->
  compare_files a b = Ok (Some (ra - rb)).
Proof.
  unfold file_rank, compare_files. intros Ha Hb.
  destruct (Get a "file_type") as [ta|]; [simpl|discriminate].
  destruct (ToString ta) as [ka|]; [simpl|discriminate].
  destruct (Get b "file_type") as [tb|]; [simpl|discriminate].
  destruct (ToString tb) as [kb|]; [simpl|discriminate].
  rewrite Ha, Hb. reflexivity.
Qed.

Lemma file_rank_values (file : value) (r : Z) :
  file_rank file = Some r -> r = 1 \/ r = 2 \/ r = 99.
Proof.
  unfold file_rank, order_or_99. intros H.
  destruct (Get file "file_type") as [t|]; [|discriminate].
  destruct (ToString t) as [k|]; [|discriminate].
  repeat case_bool_decide; inversion H; auto.
Qed.

(** A file goes in front of a file of the same or a higher rank. *)
Lemma insert_here (a b : value) (l : list value) (ra rb : Z) :
  file_rank a = Some ra -> file_rank b = Some rb -> ra <= rb ->
  insert a (b :: l) = Ok (a :: b :: l).
Proof.
  intros Ha Hb Hle. simpl. rewrite (compare_files_ranked _ _ _ _ Ha Hb). simpl.
  destruct (0 <? ra - rb) eqn:Hlt; [apply Z.ltb_lt in Hlt; lia|reflexivity].
Qed.

(** A file goes behind the files of a lower rank. *)
Lemma insert_behind (a : value) (ra : Z) (low rest : list value) :
  file_rank a = Some ra ->
  Forall (fun b => exists rb, file_rank b = Some rb /\ rb < ra) low ->
  insert a (low ++ rest) = (let* r := insert a rest in Ok (low ++ r)).
Proof.
  intros Ha Hlow. induction Hlow as [|b low (rb & Hb & Hlt) _ IH].
  - simpl. destruct (insert a rest); reflexivity.
  - simpl. rewrite (compare_files_ranked _ _ _ _ Ha Hb). simpl.
    destruct (0 <? ra - rb) eqn:Hpos; [|apply Z.ltb_ge in Hpos; lia].
    rewrite IH. destruct (insert a rest); reflexivity.
Qed.

Lemma Forall_of_rank (r : Z) (files : list value) :
  Forall (fun file => file_rank file = Some r) (of_rank r files).
Proof.
  unfold of_rank. apply List.Forall_forall. intros file Hin.
  apply filter_In in Hin as [_ H]. now apply bool_decide_eq_true in H.
Qed.

Lemma of_rank_cons (r : Z) (a : value) (files : list value) (ra : Z) :
  file_rank a = Some ra ->
  of_rank r (a :: files) = if bool_decide (ra = r) then a :: of_rank r files
                           else of_rank r files.
Proof.
  intros Ha. unfold of_rank. simpl. rewrite Ha.
  repeat case_bool_decide; congruence.
Qed.

(** The sort of files that all have a rank: the files of rank 1 (MP4), then
    those of rank 2 (M4A), then those of rank 99, each group in its original
    order.  This is the stable sort by rank. *)
Lemma array_sort_ranked (files : list value) :
  Forall (fun file => is_Some (file_rank file)) files ->
  array_sort files
  = Ok (of_rank 1 files ++ of_rank 2 files ++ of_rank 99 files).
Proof.
  induction 1 as [|a files [ra Ha] Hfiles IH]; [reflexivity|].
  rewrite !(of_rank_cons _ _ _ _ Ha).
  cbn [array_sort]. rewrite IH. cbn [result_bind].
  pose proof (Forall_of_rank 1 files) as H1.
  pose proof (Forall_of_rank 2 files) as H2.
  pose proof (Forall_of_rank 99 files) as H99.
  assert (Hhere : forall l, Forall (fun b => exists rb, file_rank b = Some rb
                                              /\ ra <= rb) l ->
                            insert a l = Ok (a :: l)).
  { intros l Hl. destruct Hl as [|b l (rb & Hb & Hle) _]; [reflexivity|].
    now apply (insert_here _ _ _ ra rb). }
  destruct (file_rank_values _ _ Ha) as [-> | [-> | ->]]; simpl.
  - apply Hhere. rewrite !Forall_app. repeat split.
    + ranked H1 1.
    + ranked H2 2.
    + ranked H99 99.
  - rewrite (insert_behind a 2 (of_rank 1 files)); [|exact Ha|].
    + rewrite Hhere; [reflexivity|]. rewrite Forall_app. split.
      * ranked H2 2.
      * ranked H99 99.
    + ranked H1 1.
  - rewrite (insert_behind a 99 (of_rank 1 files)); [|exact Ha|].
    + rewrite (insert_behind a 99 (of_rank 2 files)); [|exact Ha|].
      * rewrite Hhere; [reflexivity|].
        ranked H99 99.
      * ranked H2 2.
    + ranked H1 1.
Qed.

Lemma Get_not_nullish (v : value) (key : string) :
  nullish v = false -> exists x, Get v key = Ok x.
Proof. destruct v; simpl; intros H; try discriminate; eauto. Qed.

(** The filter drops the SUMMARY and CHAT files and keeps the others as they
    are, in order. *)
Lemma array_filter_not_summary_or_chat (files : list value) :
  Forall (fun file => nullish file = false) files ->
  array_filter not_summary_or_chat files
  = Ok (List.filter (fun file => negb (summary_or_chat file)) files).
Proof.
  induction 1 as [|file files Hfile _ IH]; [reflexivity|].
  simpl. rewrite IH. unfold not_summary_or_chat, summary_or_chat.
  destruct (Get_not_nullish file "file_type" Hfile) as [t ->]. simpl.
  destruct (strict_equals t (Str "SUMMARY")); simpl; [reflexivity|].
  destruct (strict_equals t (Str "CHAT")); reflexivity.
Qed.

(** The rank of a file whose type is a string: 1 for MP4, 2 for M4A, 99 for
    any other string that is no inherited name, and none for those. *)
Lemma file_rank_string (file : value) (t : string) :
  Get file "file_type" = Ok (Str t) ->
  file_rank file
  = if bool_decide (t = "MP4") then Some 1
    else if bool_decide (t = "M4A") then Some 2
    else if bool_decide (t ∈ inherited) then None
    else Some 99.
Proof. unfold file_rank. intros ->. reflexivity. Qed.

(** The line of a file with a type and a URL that are strings: MP4 is shown
    as VIDEO, M4A as AUDIO, any other type as it is. *)
Lemma list_file_label (html : string) (file : value) (t u : string) :
  Get file "file_type" = Ok (Str t) ->
  Get file "play_url" = Ok (Str u) ->
  u <> EmptyString ->
  list_file Richer html file
  = Ok (html +:+ file_entry Richer u (label_of t) EmptyString).
Proof.
  intros Ht Hu Hne. unfold list_file, label_of. rewrite Hu, Ht. simpl.
  rewrite bool_decide_eq_false_2 by assumption. simpl.
  destruct (bool_decide (t = "MP4")) eqn:Hmp4; simpl.
  - reflexivity.
  - destruct (bool_decide (t = "M4A")); reflexivity.
Qed.

(** What precedes the listing in the second version: SUMMARY and CHAT files
    are dropped, and the rest is in the stable order of the ranks, for files
    that are objects and whose types have ranks. *)
Lemma files_dropped_and_sorted (files : list value) :
  let kept := List.filter (fun file => negb (summary_or_chat file)) files in
  Forall (fun file => nullish file = false) files ->
  Forall (fun file => is_Some (file_rank file)) kept ->
  (let* files := array_filter not_summary_or_chat files in array_sort files)
  = Ok (of_rank 1 kept ++ of_rank 2 kept ++ of_rank 99 kept).
Proof.
  intros kept Hfiles Hranked.
  rewrite array_filter_not_summary_or_chat by assumption. simpl.
  now apply array_sort_ranked.
Qed.

End Files.

(** The files CHAT, M4A (u1), SUMMARY, MP4 (u2) of a meeting give exactly
    two lines, VIDEO (u2) then AUDIO (u1), and neither CHAT nor SUMMARY
    appears. *)
Lemma files_example :
  let block := meeting_open Richer EmptyString EmptyString
               +:+ file_entry Richer "u2" "VIDEO" EmptyString
               +:+ file_entry Richer "u1" "AUDIO" EmptyString
               +:+ meeting_close in
  list_meeting (platform := example_platform) Richer EmptyString
    (object [("recording_files",
              Arr [file "CHAT" None; file "M4A" (Some "u1");
                   file "SUMMARY" None; file "MP4" (Some "u2")])])
  = Ok block
  /\ occurrences file_tag block = 2%nat
  /\ occurrences "CHAT" block = 0%nat
  /\ occurrences "SUMMARY" block = 0%nat.
Proof. repeat split; reflexivity. Qed.

(** C4 fails on the code for a file whose type names a property that every
    object inherits, such as constructor: its rank is not 99, the comparison
    with it gives [NaN] both ways, and the files M4A (u1), constructor (u3),
    MP4 (u2) stay in that order, AUDIO before VIDEO, where the order by the
    ranks 1, 2 and 99 is MP4, M4A, constructor. *)
Lemma sort_with_inherited_name :
  let audio := file "M4A" (Some "u1") in
  let other := file "constructor" (Some "u3") in
  let video := file "MP4" (Some "u2") in
  file_rank (platform := example_platform) other = None
  /\ compare_files (platform := example_platform) audio other = Ok None
  /\ compare_files (platform := example_platform) other video = Ok None
  /\ compare_files (platform := example_platform) audio video = Ok (Some 1)
  /\ array_sort (platform := example_platform) [audio; other; video]
     = Ok [audio; other; video]
  /\ claimed_order [audio; other; video] = [video; audio; other]
  /\ list_meeting (platform := example_platform) Richer EmptyString
       (object [("recording_files", Arr [audio; other; video])])
     = Ok (meeting_open Richer EmptyString EmptyString
           +:+ file_entry Richer "u1" "AUDIO" EmptyString
           +:+ file_entry Richer "u3" "constructor" EmptyString
           +:+ file_entry Richer "u2" "VIDEO" EmptyString
           +:+ meeting_close).
Proof. repeat split; reflexivity. Qed.

(** *** The filter on the meeting id *)

Section MeetingFilter.

Context {platform : Platform}.

Lemma rational_scaled (m e k : Z) :
  k <= e -> (rational m e == inject_Z (m * 2 ^ (e - k)) * Qpower (2 # 1) k)%Q.
Proof.
  intros Hk. unfold rational.
  replace e with ((e - k) + k) at 1 by lia.
  rewrite Qpower_plus by discriminate.
  rewrite inject_Z_mult, (Zpower_Qpower 2 (e - k)) by lia.
  change (inject_Z 2) with (2 # 1). ring.
Qed.

(** Strict equality with a number is equality of numbers. *)
Lemma strict_equals_number (id : value) (n : number) :
  strict_equals id (Num n) = true <-> exists x, id = Num x /\ same_number x n.
Proof.
  split.
  - destruct id as [| |b|x|s|l|o]; simpl; try discriminate.
    intros H. exists x. split; [reflexivity|].
    destruct x as [|sx|m e], n as [|sn|m' e']; simpl in *; try discriminate.
    + now apply bool_decide_eq_true in H.
    + apply Z.eqb_eq in H.
      rewrite (rational_scaled m e (Z.min e e')),
              (rational_scaled m' e' (Z.min e e')) by lia.
      now rewrite H.
  - intros (x & -> & H).
    destruct x as [|sx|m e], n as [|sn|m' e']; simpl in *; try contradiction.
    + now apply bool_decide_eq_true.
    + apply Z.eqb_eq.
      rewrite (rational_scaled m e (Z.min e e')),
              (rational_scaled m' e' (Z.min e e')) in H by lia.
      apply Qmult_inj_r in H; [|apply Qpower_not_0; discriminate].
      apply inject_Z_injective. exact H.
Qed.

Lemma has_id_spec (n : number) (m : value) :
  has_id n m = true <-> exists x, Get m "id" = Ok (Num x) /\ same_number x n.
Proof.
  unfold has_id. destruct (Get m "id") as [id|e].
  - rewrite strict_equals_number. split.
    + intros (x & -> & H). eauto.
    + intros (x & [= ->] & H). eauto.
  - split; [discriminate|]. intros (x & [=] & _).
Qed.

Lemma array_filter_is_the_meeting (n : number) (meetings : list value) :
  Forall (fun m => nullish m = false) meetings ->
  array_filter (is_the_meeting n) meetings = Ok (List.filter (has_id n) meetings).
Proof.
  induction 1 as [|m meetings Hm _ IH]; [reflexivity|].
  simpl. rewrite IH. unfold is_the_meeting, has_id.
  destruct (Get_not_nullish m "id" Hm) as [id ->]. simpl.
  destruct (strict_equals id (Num n)); reflexivity.
Qed.

(** C3. The filter keeps a meeting exactly when its [id] is a number equal,
    as a number, to [Number(MEETING_ID)]: of the meetings 111, 222 and 333 the
    page for MEETING_ID 222 has exactly one meeting block, and the page for
    999 has none and says that no recordings were found; the id 123 is kept
    for MEETING_ID 123, and 123.5, the strings 123 and abc, [null] and a
    missing id are not. *)
Theorem meeting_filter_exact :
  (forall n m, has_id n m = true <->
               exists x, Get m "id" = Ok (Num x) /\ same_number x n)
  /\ (forall n meetings,
        Forall (fun m => nullish m = false) meetings ->
        array_filter (is_the_meeting n) meetings
        = Ok (List.filter (has_id n) meetings))
  /\ (forall v,
        let r := (handler (configured "222")
                    (zoom (Arr [meeting_with_id "111"; meeting_with_id "222";
                                meeting_with_id "333"])) v).2 in
        statusCode r = 200
        /\ occurrences meeting_tag (body r) = 1%nat
        /\ occurrences no_recordings (body r) = 0%nat)
  /\ (forall v,
        let r := (handler (configured "999")
                    (zoom (Arr [meeting_with_id "111"; meeting_with_id "222";
                                meeting_with_id "333"])) v).2 in
        statusCode r = 200
        /\ occurrences meeting_tag (body r) = 0%nat
        /\ occurrences no_recordings (body r) = 1%nat)
  /\ (Number "123" = Finite 123 0
      /\ is_the_meeting (Number "123") (object [("id", Num (Finite 123 0))])
         = Ok true
      /\ is_the_meeting (Number "123") (object [("id", Num (Finite 247 (-1)))])
         = Ok false
      /\ is_the_meeting (Number "123") (object [("id", Str "123")]) = Ok false
      /\ is_the_meeting (Number "123") (object [("id", Str "abc")]) = Ok false
      /\ is_the_meeting (Number "123") (object [("id", Null)]) = Ok false
      /\ is_the_meeting (Number "123") (object []) = Ok false).
Proof.
  split; [exact has_id_spec|].
  split; [exact array_filter_is_the_meeting|].
  split; [intros []; vm_compute; auto|].
  split; [intros []; vm_compute; auto|].
  vm_compute. repeat split.
Qed.

End MeetingFilter.

(** *** The page *)

Section Page.

Context {platform : Platform}.

Lemma append_assoc (a b c : string) : (a +:+ b) +:+ c = a +:+ b +:+ c.
Proof.
  induction a as [|x a IH]; [reflexivity|].
  change (String x ((a +:+ b) +:+ c) = String x (a +:+ b +:+ c)).
  now rewrite IH.
Qed.

Lemma append_empty_r (a : string) : a +:+ EmptyString = a.
Proof.
  induction a as [|x a IH]; [reflexivity|].
  change (String x (a +:+ EmptyString) = String x a). now rewrite IH.
Qed.

Lemma append_empty_l (a : string) : EmptyString +:+ a = a.
Proof. reflexivity. Qed.

Lemma forEach_appends {A} (f : string -> A -> result string) :
  appends f -> appends (fun html l => forEach f l html).
Proof.
  intros Hf html l. revert html.
  induction l as [|x l IH]; intros html; simpl.
  - now rewrite append_empty_r.
  - rewrite (Hf html x). destruct (f EmptyString x) as [b|e]; simpl; [|reflexivity].
    rewrite (IH (html +:+ b)), (IH b).
    destruct (forEach f l EmptyString) as [r|e]; simpl; [|reflexivity].
    now rewrite append_assoc.
Qed.

Lemma list_file_appends (v : version) : appends (list_file v).
Proof.
  intros html file. unfold list_file.
  destruct (Get file "play_url") as [play_url|e]; simpl; [|reflexivity].
  destruct (ToBoolean play_url); [|simpl; now rewrite append_empty_r].
  destruct v.
  - destruct (Get file "file_type"); simpl; [|reflexivity].
    destruct (Get file "recording_start"); simpl; [|reflexivity].
    destruct (formatDate Simple _); simpl; [|reflexivity].
    destruct (ToString play_url); simpl; [|reflexivity].
    destruct (ToString (or_else _ _)); reflexivity.
  - destruct (Get file "file_type"); simpl; [|reflexivity].
    destruct (ToString play_url); simpl; [|reflexivity].
    destruct (ToString _); reflexivity.
Qed.

Lemma list_meeting_appends (v : version) : appends (list_meeting v).
Proof.
  intros html meeting. unfold list_meeting.
  destruct (Get meeting "start_time"); simpl; [|reflexivity].
  destruct (formatDate v _) as [startTime|]; simpl; [|reflexivity].
  pose proof (forEach_appends _ (list_file_appends v)) as Hfiles.
  unfold appends in Hfiles.
  destruct v.
  - destruct (Get meeting "topic"); simpl; [|reflexivity].
    destruct (ToString _) as [topic|]; simpl; [|reflexivity].
    destruct (Get meeting "recording_files"); simpl; [|reflexivity].
    destruct (array_method _ _) as [files|]; simpl; [|reflexivity].
    rewrite append_empty_l, (Hfiles (html +:+ _)), (Hfiles (meeting_open _ _ _)).
    destruct (forEach _ files EmptyString); simpl; [|reflexivity].
    now rewrite !append_assoc.
  - destruct (Get meeting "recording_files"); simpl; [|reflexivity].
    destruct (array_method _ _) as [files|]; simpl; [|reflexivity].
    destruct (array_filter _ files) as [kept|]; simpl; [|reflexivity].
    destruct (array_sort kept) as [sorted|]; simpl; [|reflexivity].
    rewrite append_empty_l, (Hfiles (html +:+ _)), (Hfiles (meeting_open _ _ _)).
    destruct (forEach _ sorted EmptyString); simpl; [|reflexivity].
    now rewrite !append_assoc.
Qed.

(** What a [forEach] of an appending callback adds: the blocks of the
    elements, in order. *)
Lemma forEach_blocks {A} (f : string -> A -> result string) (l : list A)
    (html r : string) :
  appends f ->
  forEach f l html = Ok r ->
  exists blocks, Forall2 (fun x b => f EmptyString x = Ok b) l blocks
                 /\ r = html +:+ blocks_text blocks.
Proof.
  intros Hf. revert html r.
  induction l as [|x l IH]; intros html r; simpl.
  - intros [= <-]. exists []. split; [constructor|].
    simpl. now rewrite append_empty_r.
  - rewrite (Hf html x). destruct (f EmptyString x) as [b|e] eqn:Hb; simpl;
      [|discriminate].
    intros Hr. destruct (IH _ _ Hr) as (blocks & Hblocks & ->).
    exists (b :: blocks). split; [now constructor|].
    simpl. now rewrite append_assoc.
Qed.

(** A meeting block opens with the tag of its class. *)
Lemma list_meeting_tag (v : version) (meeting : value) (b : string) :
  list_meeting v EmptyString meeting = Ok b ->
  exists rest, b = meeting_tag +:+ rest.
Proof.
  unfold list_meeting.
  destruct (Get meeting "start_time"); simpl; [|discriminate].
  destruct (formatDate v _) as [startTime|]; simpl; [|discriminate].
  pose proof (forEach_appends _ (list_file_appends v)) as Hfiles.
  unfold appends in Hfiles.
  destruct v.
  - destruct (Get meeting "topic"); simpl; [|discriminate].
    destruct (ToString _) as [topic|]; simpl; [|discriminate].
    destruct (Get meeting "recording_files"); simpl; [|discriminate].
    destruct (array_method _ _) as [files|]; simpl; [|discriminate].
    rewrite append_empty_l, Hfiles.
    destruct (forEach _ files EmptyString); simpl; [|discriminate].
    intros [= <-]. eexists. reflexivity.
  - destruct (Get meeting "recording_files"); simpl; [|discriminate].
    destruct (array_method _ _) as [files|]; simpl; [|discriminate].
    destruct (array_filter _ files) as [kept|]; simpl; [|discriminate].
    destruct (array_sort kept) as [sorted|]; simpl; [|discriminate].
    rewrite append_empty_l, Hfiles.
    destruct (forEach _ sorted EmptyString); simpl; [|discriminate].
    intros [= <-]. eexists. reflexivity.
Qed.

(** The page that is built: the opening, the no-recordings message or the
    blocks of the meetings, and the closing. *)
Lemma build_html_blocks (v : version) (id : string) (filtered : list value)
    (html : string) :
  build_html v id filtered = Ok html ->
  exists blocks,
    Forall2 (fun m b => list_meeting v EmptyString m = Ok b) filtered blocks
    /\ html = page_open v id
              +:+ match blocks with
                  | [] => no_recordings
                  | _ => blocks_text blocks
                  end
              +:+ page_close v.
Proof.
  unfold build_html. destruct filtered as [|m filtered]; simpl.
  - intros [= <-]. exists []. split; [constructor|]. now rewrite append_assoc.
  - destruct (list_meeting v (page_open v id) m) as [h|] eqn:Hm; simpl;
      [|discriminate].
    destruct (forEach (list_meeting v) filtered h) as [h'|] eqn:Hrest; simpl;
      [|discriminate].
    intros [= <-].
    destruct (forEach_blocks (list_meeting v) (m :: filtered) (page_open v id) h'
                (list_meeting_appends v)) as (blocks & Hblocks & ->).
    { simpl. rewrite Hm. exact Hrest. }
    exists blocks. split; [exact Hblocks|].
    inversion Hblocks; subst. now rewrite append_assoc.
Qed.

Lemma occurs_in_append (s t r : string) :
  occurs_in s t -> occurs_in s (t +:+ r).
Proof.
  intros (before & after & ->). exists before, (after +:+ r).
  now rewrite !append_assoc.
Qed.

(** The opening of the page has the subtitle with the meeting id as it is
    configured. *)
Lemma page_open_subtitle (v : version) (id : string) :
  occurs_in (subtitle id) (page_open v id).
Proof.
  pose (opening := page_open v EmptyString).
  pose (k := default 0%nat (String.index 0 (subtitle EmptyString) opening)).
  exists (String.substring 0 k opening).
  exists (String.substring (k + String.length (subtitle EmptyString)) (String.length opening) opening).
  unfold subtitle. rewrite !append_assoc.
  destruct v; reflexivity.
Qed.

End Page.

(** *** The invocation as a whole *)

Section Responses.

Context {platform : Platform}.

Variable env : gmap string string.
Variable net : request -> result response.
Variable v : version.

(** With both requests answered, the response is the page that is built for
    the meetings that the filter keeps, or the catch-all when the filter or
    the building throws. *)
Lemma handler_upstream (meetings : list value) :
  missing env = false ->
  upstream env net v meetings ->
  (handler env net v).2
  = match (let* filtered :=
             array_filter (is_the_meeting (Number_of (env !! "MEETING_ID")))
                          meetings in
           build_html v (text_of (env !! "MEETING_ID")) filtered) with
    | Ok html => page html
    | Throw _ => failure "Unexpected error loading recordings."
    end.
Proof.
  unfold missing. intros Hconf [].
  run_handler.
  repeat match goal with H : _ = _ |- _ => rewrite H; clear H end.
  simpl.
  destruct (array_filter _ meetings) as [filtered|e]; simpl; [|reflexivity].
  destruct (build_html _ _ filtered) as [html|e]; reflexivity.
Qed.

(** A response with status 200 comes from the end of the [try] block. *)
Lemma handler_200 :
  statusCode (handler env net v).2 = 200 ->
  missing env = false
  /\ exists meetings filtered html,
       upstream env net v meetings
       /\ array_filter (is_the_meeting (Number_of (env !! "MEETING_ID")))
                       meetings = Ok filtered
       /\ build_html v (text_of (env !! "MEETING_ID")) filtered = Ok html
       /\ (handler env net v).2 = page html.
Proof.
  intros H.
  destruct (missing env) eqn:Hconf.
  { exfalso. revert H. unfold missing in Hconf. run_handler.
    rewrite Hconf. discriminate. }
  split; [reflexivity|].
  pose proof H as H'. revert H'. unfold missing in Hconf. run_handler.
  rewrite Hconf. intros H'.
  repeat case_step H'.
  repeat match goal with
         | Hok : negb (ok _) = false |- _ => apply negb_false_iff in Hok
         end.
  eexists _, _, _. split; [econstructor; eassumption|].
  split; [eassumption|]. split; [eassumption|]. reflexivity.
Qed.

Lemma upstream_unique (meetings meetings' : list value) :
  upstream env net v meetings -> upstream env net v meetings' ->
  meetings = meetings'.
Proof. intros [] []. congruence. Qed.

Lemma configured_meeting_id :
  missing env = false ->
  exists id, env !! "MEETING_ID" = Some id /\ id <> EmptyString.
Proof.
  unfold missing. intros H. apply orb_false_iff in H as [_ H].
  destruct (env !! "MEETING_ID") as [id|]; [|discriminate].
  exists id. split; [reflexivity|]. simpl in H.
  now apply bool_decide_eq_false in H.
Qed.

Lemma array_filter_kept (n : number) (meetings filtered : list value) :
  array_filter (is_the_meeting n) meetings = Ok filtered ->
  filtered = List.filter (has_id n) meetings.
Proof.
  revert filtered. induction meetings as [|m meetings IH]; simpl.
  - now intros filtered [= <-].
  - intros filtered. unfold is_the_meeting at 1, has_id.
    destruct (Get m "id") as [id|]; simpl; [|discriminate].
    destruct (array_filter _ meetings) as [r|]; simpl; [|discriminate].
    intros [= <-]. rewrite (IH r eq_refl).
    destruct (strict_equals id (Num n)); reflexivity.
Qed.

(** C7. Whatever is thrown in the [try] block, by whichever step, is caught:
    the invocation logs it as an unhandled error and answers 500 with the
    text of the catch-all.  The handler always answers, and its answer is
    either one of the four failures, a 500 without headers whose body is
    the fixed text alone, or a 200 whose body is a whole page from its
    opening to its closing.  In particular a request that fails, a token
    body that is no JSON, a token body that is [null], and a
    filter or a page that throws (a meeting or a file that is [null], say)
    are answered with the catch-all. *)
Theorem errors_are_caught :
  (forall t e, handler_try env net v = (t, Throw e) ->
     handler env net v
     = (t ++ [ConsoleError [LogText "Unhandled error:"; LogError e]],
        {| statusCode := 500; headers := None;
           body := "Unexpected error loading recordings." |}))
  /\ ((exists text, text ∈ failure_texts
                    /\ (handler env net v).2 = failure text)
      \/ (exists id middle,
            (handler env net v).2
            = page (page_open v id +:+ middle +:+ page_close v)))
  /\ (missing env = false ->
      (forall e, net (token_request env) = Throw e ->
         (handler env net v).2 = failure "Unexpected error loading recordings.")
      /\ (forall tokenRes e,
            net (token_request env) = Ok tokenRes -> ok tokenRes = true ->
            json tokenRes = Throw e ->
            (handler env net v).2
            = failure "Unexpected error loading recordings.")
      /\ (forall tokenRes,
            net (token_request env) = Ok tokenRes -> ok tokenRes = true ->
            json tokenRes = Ok Null ->
            (handler env net v).2
            = failure "Unexpected error loading recordings.")
      /\ (forall meetings e,
            upstream env net v meetings ->
            (let* filtered :=
               array_filter (is_the_meeting (Number_of (env !! "MEETING_ID")))
                            meetings in
             build_html v (text_of (env !! "MEETING_ID")) filtered) = Throw e ->
            (handler env net v).2
            = failure "Unexpected error loading recordings.")).
Proof.
  split; [|split].
  - intros t e H. unfold handler. rewrite H. reflexivity.
  - destruct (handler env net v) as [t r] eqn:H. revert H. run_handler.
    intros H. unfold failure_texts.
    repeat case_step H; injection H as <- <-; simpl;
      try (left; eexists; split; [|reflexivity]; rewrite !elem_of_cons; tauto).
    right.
    match goal with
    | Hb : build_html _ _ _ = Ok _ |- _ =>
        destruct (build_html_blocks _ _ _ _ Hb) as (blocks & _ & ->)
    end.
    eexists _, _. reflexivity.
  - intros Hconf'. pose proof Hconf' as Hconf. unfold missing in Hconf.
    repeat split.
    + intros e Hnet. run_handler. rewrite Hconf, Hnet. reflexivity.
    + intros tokenRes e Hnet Hok Hjson. run_handler.
      rewrite Hconf, Hnet, Hok. simpl. rewrite Hjson. reflexivity.
    + intros tokenRes Hnet Hok Hjson. run_handler.
      rewrite Hconf, Hnet, Hok. simpl. rewrite Hjson. reflexivity.
    + intros meetings e Hup Hthrow.
      rewrite (handler_upstream _ Hconf' Hup), Hthrow. reflexivity.
Qed.

(** C8. A page that the handler answers with has the subtitle with the
    MEETING_ID of the configuration as it is; and when none of the meetings
    of the recordings response has that id, the page is the opening with
    that subtitle, the no-recordings message and the closing. *)
Theorem subtitle_echoes_meeting_id :
  statusCode (handler env net v).2 = 200 ->
  exists id,
    env !! "MEETING_ID" = Some id
    /\ occurs_in (subtitle id) (body (handler env net v).2)
    /\ (forall meetings,
          upstream env net v meetings ->
          List.filter (has_id (Number id)) meetings = [] ->
          body (handler env net v).2
          = page_open v id +:+ no_recordings +:+ page_close v).
Proof.
  intros H.
  destruct (handler_200 H) as (Hconf & meetings & filtered & html & Hup
                               & Hfiltered & Hhtml & ->).
  destruct (configured_meeting_id Hconf) as (id & Hid & _).
  rewrite Hid in *. simpl in *. exists id. split; [reflexivity|].
  destruct (build_html_blocks _ _ _ _ Hhtml) as (blocks & Hblocks & ->).
  split.
  - apply occurs_in_append, page_open_subtitle.
  - intros meetings' Hup' Hnone.
    rewrite (upstream_unique _ _ Hup' Hup) in Hnone.
    rewrite (array_filter_kept _ _ _ Hfiltered), Hnone in Hblocks.
    inversion Hblocks. reflexivity.
Qed.

(** C9, as the code has it.  A page that the handler answers with has one
    block for each meeting of the recordings response whose id equals the
    configured one, in the order of the response, and nothing for the other
    meetings; without such a meeting it has the no-recordings message. *)
Theorem one_block_per_matching_meeting :
  statusCode (handler env net v).2 = 200 ->
  exists id meetings blocks,
    env !! "MEETING_ID" = Some id
    /\ upstream env net v meetings
    /\ Forall2 (fun m b => list_meeting v EmptyString m = Ok b
                           /\ exists rest, b = meeting_tag +:+ rest)
               (List.filter (has_id (Number id)) meetings) blocks
    /\ body (handler env net v).2
       = page_open v id
         +:+ match blocks with
             | [] => no_recordings
             | _ => blocks_text blocks
             end
         +:+ page_close v.
Proof.
  intros H.
  destruct (handler_200 H) as (Hconf & meetings & filtered & html & Hup
                               & Hfiltered & Hhtml & ->).
  destruct (configured_meeting_id Hconf) as (id & Hid & _).
  rewrite Hid in *. simpl in *.
  destruct (build_html_blocks _ _ _ _ Hhtml) as (blocks & Hblocks & ->).
  exists id, meetings, blocks. split; [reflexivity|]. split; [exact Hup|].
  split; [|reflexivity].
  rewrite <- (array_filter_kept _ _ _ Hfiltered).
  eapply Forall2_impl; [exact Hblocks|].
  intros m b Hb. split; [exact Hb|]. eapply list_meeting_tag, Hb.
Qed.

(** C10. With a complete configuration whose MEETING_ID is no number
    ([Number(MEETING_ID)] is [NaN]), both requests answered and a recordings
    response whose meetings are objects, the handler answers 200 with the
    no-recordings page: [NaN] equals the id of no meeting. *)
Theorem non_numeric_meeting_id (id : string) (meetings : list value) :
  missing env = false ->
  env !! "MEETING_ID" = Some id ->
  Number id = NaN ->
  upstream env net v meetings ->
  Forall (fun m => nullish m = false) meetings ->
  (handler env net v).2
  = {| statusCode := 200;
       headers := Some [("Content-Type", "text/html; charset=utf-8")];
       body := page_open v id
               +:+ "<p>No recordings found yet for this meeting.</p>"
               +:+ page_close v |}.
Proof.
  intros Hconf Hid Hnan Hup Hmeetings.
  rewrite (handler_upstream _ Hconf Hup), Hid. simpl. rewrite Hnan.
  rewrite array_filter_is_the_meeting by assumption.
  assert (Hnone : List.filter (has_id NaN) meetings = []).
  { clear. induction meetings as [|m l IH]; [reflexivity|]. simpl.
    rewrite IH. unfold has_id.
    destruct (Get m "id") as [[| | |[]| | |]|]; reflexivity. }
  rewrite Hnone. simpl. unfold build_html. simpl.
  now rewrite append_assoc.
Qed.

End Responses.

(** Without network the token request fails and the answer is the
    catch-all, in both versions. *)
Lemma errors_are_caught_example :
  (handler (platform := example_platform) (configured "222") offline Simple).2
  = failure "Unexpected error loading recordings."
  /\ (handler (platform := example_platform) (configured "222") offline
        Richer).2
     = failure "Unexpected error loading recordings.".
Proof.
  split.
  - destruct (errors_are_caught (platform := example_platform)
                (configured "222") offline Simple) as (_ & _ & H).
    destruct (H eq_refl) as (Hnet & _). exact (Hnet _ eq_refl).
  - destruct (errors_are_caught (platform := example_platform)
                (configured "222") offline Richer) as (_ & _ & H).
    destruct (H eq_refl) as (Hnet & _). exact (Hnet _ eq_refl).
Defined.

(** The page for MEETING_ID 999 when Zoom lists the meeting 111 only. *)
Lemma subtitle_example :
  exists id,
    configured "999" !! "MEETING_ID" = Some id
    /\ occurs_in (subtitle id)
         (body (handler (platform := example_platform) (configured "999")
                  (zoom (Arr [meeting_with_id "111"])) Richer).2)
    /\ (forall meetings,
          upstream (platform := example_platform) (configured "999")
            (zoom (Arr [meeting_with_id "111"])) Richer meetings ->
          List.filter (has_id (Number id)) meetings = [] ->
          body (handler (platform := example_platform) (configured "999")
                  (zoom (Arr [meeting_with_id "111"])) Richer).2
          = page_open Richer id +:+ no_recordings +:+ page_close Richer).
Proof.
  apply (subtitle_echoes_meeting_id (platform := example_platform)).
  reflexivity.
Defined.

(** C9 as stated fails: two sessions of the meeting 222, as Zoom lists them
    for a recurring meeting, give a page with two meeting blocks, in both
    versions; the first version shows both topics. *)
Lemma two_sessions_two_blocks :
  (statusCode (handler (platform := example_platform) (configured "222")
                 (zoom (Arr [session "222" "Monday"; session "222" "Tuesday"]))
                 Simple).2 = 200
   /\ occurrences meeting_tag
        (body (handler (platform := example_platform) (configured "222")
                 (zoom (Arr [session "222" "Monday"; session "222" "Tuesday"]))
                 Simple).2) = 2%nat
   /\ occurrences "Monday"
        (body (handler (platform := example_platform) (configured "222")
                 (zoom (Arr [session "222" "Monday"; session "222" "Tuesday"]))
                 Simple).2) = 1%nat
   /\ occurrences "Tuesday"
        (body (handler (platform := example_platform) (configured "222")
                 (zoom (Arr [session "222" "Monday"; session "222" "Tuesday"]))
                 Simple).2) = 1%nat)
  /\ (statusCode (handler (platform := example_platform) (configured "222")
                    (zoom (Arr [session "222" "Monday";
                                session "222" "Tuesday"])) Richer).2 = 200
      /\ occurrences meeting_tag
           (body (handler (platform := example_platform) (configured "222")
                    (zoom (Arr [session "222" "Monday";
                                session "222" "Tuesday"])) Richer).2) = 2%nat).
Proof. vm_compute. repeat split. Qed.

(** The blocks of those two sessions. *)
Lemma one_block_per_matching_meeting_example :
  exists id meetings blocks,
    configured "222" !! "MEETING_ID" = Some id
    /\ upstream (platform := example_platform) (configured "222")
         (zoom (Arr [session "222" "Monday"; session "222" "Tuesday"]))
         Simple meetings
    /\ Forall2 (fun m b =>
                  list_meeting (platform := example_platform) Simple
                    EmptyString m = Ok b
                  /\ exists rest, b = meeting_tag +:+ rest)
               (List.filter (has_id (Number id)) meetings) blocks
    /\ body (handler (platform := example_platform) (configured "222")
               (zoom (Arr [session "222" "Monday"; session "222" "Tuesday"]))
               Simple).2
       = page_open Simple id
         +:+ match blocks with
             | [] => no_recordings
             | _ => blocks_text blocks
             end
         +:+ page_close Simple.
Proof.
  apply (one_block_per_matching_meeting (platform := example_platform)).
  reflexivity.
Defined.

(** MEETING_ID abc, with Zoom listing the meeting 111. *)
Lemma non_numeric_meeting_id_example :
  Number "abc" = NaN
  /\ (handler (platform := example_platform) (configured "abc")
        (zoom (Arr [meeting_with_id "111"])) Simple).2
     = page (page_open Simple "abc" +:+ no_recordings +:+ page_close Simple).
Proof.
  split; [reflexivity|].
  apply (non_numeric_meeting_id (platform := example_platform)
           (configured "abc") (zoom (Arr [meeting_with_id "111"])) Simple
           "abc" [meeting_with_id "111"]).
  - reflexivity.
  - reflexivity.
  - reflexivity.
  - econstructor; reflexivity.
  - repeat constructor.
Defined.

(** ** Further properties *)

(** *** The recordings request *)

Section RecordingsRequest.

Context {platform : Platform}.

Variable env : gmap string string.
Variable net : request -> result response.
Variable v : version.

(** X1. With a token granted, a recordings response whose status is not 2xx
    is answered with 500 and the recordings failure text when its body can
    be read, after exactly the two requests and one log entry with the
    status and the body; when the body cannot be read the answer is the
    catch-all. *)
Theorem recordings_failure (tokenRes : response) (tokenData accessToken : value)
    (bearer : string) (recRes : response) :
  missing env = false ->
  net (token_request env) = Ok tokenRes -> ok tokenRes = true ->
  json tokenRes = Ok tokenData ->
  Get tokenData "access_token" = Ok accessToken ->
  ToString accessToken = Ok bearer ->
  net (recordings_request env v bearer) = Ok recRes -> ok recRes = false ->
  fetches (handler env net v).1
  = [token_request env; recordings_request env v bearer]
  /\ statusCode (handler env net v).2 = 500
  /\ (forall s, text recRes = Ok s ->
        handler env net v
        = ([Fetched (token_request env);
            Fetched (recordings_request env v bearer);
            ConsoleError [LogText "Error fetching recordings:";
                          LogStatus (status recRes); LogText s]],
           {| statusCode := 500; headers := None;
              body := "Failed to fetch recordings from Zoom." |}))
  /\ (forall e, text recRes = Throw e ->
        (handler env net v).2
        = failure "Unexpected error loading recordings.").
Proof.
  unfold missing. intros Hconf Hnet Hok Hjson Hget Htext Hnet' Hok'.
  run_handler. rewrite Hconf, Hnet, Hok. simpl.
  rewrite Hjson. simpl. rewrite Hget. simpl. rewrite Htext. simpl.
  rewrite Hnet', Hok'. simpl.
  destruct (text recRes) as [s|e]; simpl; repeat split;
    try (intros ? [= <-]); try discriminate; reflexivity.
Qed.

(** X4. The token response is not checked for a token: when its JSON body
    has no [access_token] (an object without that key, or a number, a string,
    a boolean or an array), the recordings request is still sent, with the
    authorization Bearer undefined. *)
Theorem missing_access_token (tokenRes : response) (tokenData : value) :
  missing env = false ->
  net (token_request env) = Ok tokenRes -> ok tokenRes = true ->
  json tokenRes = Ok tokenData ->
  Get tokenData "access_token" = Ok Undefined ->
  exists second,
    fetches (handler env net v).1 = [token_request env; second]
    /\ method second = "GET"
    /\ authorization second = "Bearer undefined".
Proof.
  unfold missing. intros Hconf Hnet Hok Hjson Hget.
  exists (recordings_request env v "undefined"). split; [|split; reflexivity].
  run_handler. rewrite Hconf, Hnet, Hok. simpl.
  rewrite Hjson. simpl. rewrite Hget. simpl.
  repeat case_goal; reflexivity.
Qed.

(** X2. The shape of every invocation: it sends nothing when the
    configuration is incomplete, else the token request alone or the token
    request followed by one recordings request; a 200 comes only after both
    requests; and [console.error] is called exactly once when the answer is
    a 500 with a complete configuration, and never otherwise (not for a
    page, and not for a missing configuration). *)
Theorem invocation_shape :
  (fetches (handler env net v).1 = [] <-> missing env = true)
  /\ (fetches (handler env net v).1 = []
      \/ fetches (handler env net v).1 = [token_request env]
      \/ exists accessToken,
           fetches (handler env net v).1
           = [token_request env; recordings_request env v accessToken])
  /\ (statusCode (handler env net v).2 = 200 ->
      exists accessToken,
        fetches (handler env net v).1
        = [token_request env; recordings_request env v accessToken])
  /\ logged_errors (handler env net v).1
     = if missing env || (statusCode (handler env net v).2 =? 200)
       then 0%nat else 1%nat.
Proof.
  destruct (missing env) eqn:Hconf; unfold missing in Hconf; run_handler;
    rewrite Hconf; simpl.
  - repeat split; auto; discriminate.
  - repeat case_goal;
      (split; [split; discriminate|]);
      (split; [eauto|]);
      (split; [try discriminate; eauto|reflexivity]).
Qed.


End RecordingsRequest.

(** *** The address of the recordings request *)

Section Address.

Context {platform : Platform}.

Lemma bytes_append (a b : string) : bytes (a +:+ b) = bytes a ++ bytes b.
Proof.
  unfold bytes. induction a as [|c a IH]; [reflexivity|].
  change (String c a +:+ b) with (String c (a +:+ b)). simpl. now rewrite IH.
Qed.

Lemma unreserved_byte (a : N) : unreserved a = true -> (a < 256)%N.
Proof.
  unfold unreserved. intros H.
  destruct (N.ltb_spec a 256) as [Hlt|Hge]; [exact Hlt|exfalso].
  repeat (apply orb_true_iff in H as [H|H]);
    try (apply andb_true_iff in H as [_ H]; apply N.leb_le in H; lia).
  apply bool_decide_eq_true in H.
  set (l := bytes "-_.!~*'()") in H. vm_compute in l. subst l.
  rewrite !elem_of_cons in H. rewrite elem_of_nil in H. lia.
Qed.

Lemma bytes_char (a : N) :
  (a < 256)%N -> bytes (String (Ascii.ascii_of_N a) EmptyString) = [a].
Proof.
  intros Ha. unfold bytes. simpl. now rewrite Ascii.N_ascii_embedding.
Qed.

Lemma hex_digit_safe (n : N) :
  Forall (fun a => url_safe a = true) (bytes (hex_digit n)).
Proof.
  unfold hex_digit.
  destruct (nth_in_or_default (N.to_nat n) (bytes "0123456789ABCDEF") 48%N)
    as [Hin | ->]; [|repeat constructor].
  revert Hin. generalize (nth (N.to_nat n) (bytes "0123456789ABCDEF") 48%N).
  intros h Hin. set (l := bytes "0123456789ABCDEF") in Hin.
  vm_compute in l. subst l. simpl in Hin.
  repeat destruct Hin as [<- | Hin]; try (repeat constructor); contradiction.
Qed.

Lemma encodeURIComponent_safe (l : list N) :
  Forall (fun a => url_safe a = true) (bytes (encodeURIComponent l)).
Proof.
  induction l as [|a l IH]; [constructor|].
  simpl. rewrite bytes_append. apply Forall_app. split; [|exact IH].
  destruct (unreserved a) eqn:Ha.
  - rewrite bytes_char by now apply unreserved_byte.
    constructor; [|constructor]. unfold url_safe. now rewrite Ha.
  - rewrite !bytes_append. rewrite !Forall_app.
    repeat split; try apply hex_digit_safe. repeat constructor.
Qed.

Lemma encodeURIComponent_unreserved (s : string) :
  Forall (fun a => unreserved a = true) (bytes s) ->
  encodeURIComponent (bytes s) = s.
Proof.
  induction s as [|c s IH]; [reflexivity|].
  change (bytes (String c s)) with (Ascii.N_of_ascii c :: bytes s).
  intros H. inversion H as [|? ? Hc Hs]; subst.
  cbn [encodeURIComponent]. rewrite Hc, Ascii.ascii_N_embedding, (IH Hs).
  reflexivity.
Qed.

(** X3. The user id is escaped in the address of the recordings request:
    the address is the fixed path around one segment that has only
    unreserved bytes and percent signs (so no slash, question mark, hash or
    ampersand of the user id reaches the address), followed by the page size
    of the version.  The segment is me when ZOOM_USER_ID is absent or
    empty, and the user id itself when all its bytes are unreserved. *)
Theorem user_id_is_escaped (env : gmap string string) (v : version)
    (accessToken : string) :
  exists segment,
    url (recordings_request env v accessToken)
    = "https://api.zoom.us/v2/users/" +:+ segment
      +:+ "/recordings?page_size="
      +:+ match v with Simple => "100" | Richer => "200" end
    /\ Forall (fun a => url_safe a = true) (bytes segment)
    /\ (falsy (env !! "ZOOM_USER_ID") = true -> segment = "me")
    /\ (forall user,
          env !! "ZOOM_USER_ID" = Some user -> user <> EmptyString ->
          Forall (fun a => unreserved a = true) (bytes user) ->
          segment = user).
Proof.
  unfold recordings_request. simpl.
  eexists. split; [destruct v; reflexivity|].
  split; [apply encodeURIComponent_safe|]. split.
  - intros ->. reflexivity.
  - intros user Huser Hne Hsafe. rewrite Huser. simpl.
    rewrite bool_decide_eq_false_2 by assumption.
    now apply encodeURIComponent_unreserved.
Qed.

End Address.

(** *** The body of the recordings response *)

Section RecordingsBody.

Context {platform : Platform}.

Variable env : gmap string string.
Variable net : request -> result response.
Variable v : version.

Lemma array_filter_nullish (n : number) (meetings : list value) :
  Exists (fun m => nullish m = true) meetings ->
  exists e, array_filter (is_the_meeting n) meetings = Throw e.
Proof.
  induction 1 as [m meetings Hm | m meetings _ [e IH]].
  - destruct m; try discriminate; simpl; eauto.
  - simpl. rewrite IH.
    destruct (is_the_meeting n m) as [keep|e']; simpl; eauto.
Qed.

(** X5. When both requests succeed and the recordings body lists no
    meetings ([meetings] is absent, [null] or otherwise falsy, or the body is
    no object at all), the handler answers 200 with the no-recordings
    page. *)
Theorem no_meetings_listed (id : string) (recData listed : value) :
  missing env = false ->
  env !! "MEETING_ID" = Some id ->
  recordings_body env net v recData ->
  Get recData "meetings" = Ok listed ->
  ToBoolean listed = false ->
  (handler env net v).2
  = {| statusCode := 200;
       headers := Some [("Content-Type", "text/html; charset=utf-8")];
       body := page_open v id
               +:+ "<p>No recordings found yet for this meeting.</p>"
               +:+ page_close v |}.
Proof.
  intros Hconf Hid [] Hget Hfalsy.
  rewrite (handler_upstream env net v [] Hconf).
  - rewrite Hid. simpl. unfold build_html. simpl. now rewrite append_assoc.
  - econstructor; try eassumption. unfold or_else. now rewrite Hfalsy.
Qed.

(** X6. When both requests succeed and the recordings body is malformed,
    the handler answers with the catch-all 500 and no page: the body is
    [null], or its [meetings] are truthy and no array, or they are an array
    with a [null] among its elements. *)
Theorem malformed_recordings_body (recData : value) :
  missing env = false ->
  recordings_body env net v recData ->
  nullish recData = true
  \/ (exists listed, Get recData "meetings" = Ok listed
                     /\ ToBoolean listed = true
                     /\ forall l, listed <> Arr l)
  \/ (exists meetings, Get recData "meetings" = Ok (Arr meetings)
                       /\ Exists (fun m => nullish m = true) meetings) ->
  (handler env net v).2
  = {| statusCode := 500; headers := None;
       body := "Unexpected error loading recordings." |}.
Proof.
  intros Hconf [] Hbad.
  destruct Hbad as [Hnull | [(listed & Hget & Htruthy & Hnot)
                            | (meetings & Hget & Hnullish)]].
  - unfold missing in Hconf. run_handler.
    repeat match goal with H : _ = _ |- _ => rewrite H; clear H end.
    simpl. destruct recData; try discriminate; reflexivity.
  - unfold missing in Hconf. run_handler.
    rewrite Hconf.
    repeat match goal with
           | H : net _ = _ |- _ => rewrite H; clear H; simpl
           | H : ok _ = _ |- _ => rewrite H; clear H; simpl
           | H : json _ = _ |- _ => rewrite H; clear H; simpl
           | H : Get _ _ = _ |- _ => rewrite H; clear H; simpl
           | H : ToString _ = _ |- _ => rewrite H; clear H; simpl
           end.
    unfold or_else. rewrite Htruthy.
    destruct listed; simpl; try reflexivity; try discriminate.
    now destruct (Hnot l).
  - destruct (array_filter_nullish (Number_of (env !! "MEETING_ID")) _ Hnullish)
      as [e He].
    rewrite (handler_upstream env net v meetings Hconf).
    + rewrite He. reflexivity.
    + econstructor; try eassumption. reflexivity.
Qed.

End RecordingsBody.

(** *** The number of a MEETING_ID *)

Section MeetingIdNumber.

Context {platform : Platform}.

Lemma digit_value_digit (d : N) :
  (d < 10)%N -> digit_value 10 (48 + d) = Some (Z.of_N d).
Proof.
  intros Hd.
  assert (d = 0 \/ d = 1 \/ d = 2 \/ d = 3 \/ d = 4 \/ d = 5 \/ d = 6
          \/ d = 7 \/ d = 8 \/ d = 9)%N as H by lia.
  repeat destruct H as [-> | H]; try reflexivity. now subst.
Qed.

Lemma digits_decimal (ds rest : list N) (acc : Z) :
  Forall (fun d => (d < 10)%N) ds ->
  match rest with
  | [] => True
  | a :: _ => digit_value 10 a = None
  end ->
  digits 10 acc (digit_bytes ds ++ rest)
  = (fold_left (fun acc d => acc * 10 + Z.of_N d) ds acc,
     Z.of_nat (length ds), rest).
Proof.
  intros Hds Hrest. revert acc.
  induction Hds as [|d ds Hd _ IH]; intros acc.
  - simpl. destruct rest as [|a r]; [reflexivity|].
    simpl. now rewrite Hrest.
  - cbn [digit_bytes map app digits].
    rewrite (digit_value_digit d Hd).
    change (map (N.add 48) ds) with (digit_bytes ds). rewrite IH.
    cbn [fold_left length]. f_equal. f_equal. lia.
Qed.

Lemma skip_space_plain (a : N) (l : list N) :
  plain a -> skip_space (a :: l) = a :: l.
Proof.
  intros [Hlo Hhi].
  assert ((a <=? 13) = false)%N as H1 by (apply N.leb_gt; lia).
  assert ((a =? 32) = false)%N as H2 by (apply N.eqb_neq; lia).
  assert ((a =? 194) = false)%N as H3 by (apply N.eqb_neq; lia).
  assert ((a =? 225) = false)%N as H4 by (apply N.eqb_neq; lia).
  assert ((a =? 226) = false)%N as H5 by (apply N.eqb_neq; lia).
  assert ((a =? 227) = false)%N as H6 by (apply N.eqb_neq; lia).
  assert ((a =? 239) = false)%N as H7 by (apply N.eqb_neq; lia).
  cbn [skip_space]. rewrite H1, H2, H3, H4, H5, H6, H7.
  rewrite ?andb_false_r. simpl.
  destruct l as [|b [|c r]]; reflexivity.
Qed.

Lemma skip_space_rev_plain (a : N) (l : list N) :
  plain a -> skip_space_rev (a :: l) = a :: l.
Proof.
  intros [Hlo Hhi].
  assert ((a <=? 13) = false)%N as H1 by (apply N.leb_gt; lia).
  assert ((a =? 32) = false)%N as H2 by (apply N.eqb_neq; lia).
  assert ((a =? 160) = false)%N as H3 by (apply N.eqb_neq; lia).
  assert ((a =? 128) = false)%N as H4 by (apply N.eqb_neq; lia).
  assert ((128 <=? a) = false)%N as H5 by (apply N.leb_gt; lia).
  assert ((a =? 168) = false)%N as H6 by (apply N.eqb_neq; lia).
  assert ((a =? 169) = false)%N as H7 by (apply N.eqb_neq; lia).
  assert ((a =? 175) = false)%N as H8 by (apply N.eqb_neq; lia).
  assert ((a =? 159) = false)%N as H9 by (apply N.eqb_neq; lia).
  assert ((a =? 191) = false)%N as H10 by (apply N.eqb_neq; lia).
  cbn [skip_space_rev]. rewrite H1, H2, H3, H4, H5, H6, H7, H8, H9, H10.
  rewrite ?andb_false_r, ?orb_false_r. simpl.
  destruct l as [|b [|c r]]; rewrite ?andb_false_r; reflexivity.
Qed.

(** Text whose first and last bytes are plain is not trimmed. *)
Lemma trim_plain (a z : N) (l init : list N) :
  plain a -> plain z -> a :: l = init ++ [z] -> trim (a :: l) = a :: l.
Proof.
  intros Ha Hz Hl. unfold trim. rewrite (skip_space_plain a l Ha).
  rewrite Hl, rev_app_distr. cbn [rev app].
  rewrite (skip_space_rev_plain z _ Hz).
  change (z :: rev init) with ([z] ++ rev init).
  now rewrite rev_app_distr, rev_involutive.
Qed.






Lemma digit_byte_plain (d : N) : (d < 10)%N -> plain (48 + d).
Proof. unfold plain. lia. Qed.

(** The text of digits, as it is read: not trimmed, and no sign, prefix or
    Infinity. *)
Lemma string_to_number_digits (d : N) (ds rest : list N) :
  (d < 10)%N -> Forall (fun d => (d < 10)%N) ds ->
  match rest with
  | [] => True
  | c :: _ => c = 32%N \/ c = 45%N
  end ->
  trim (digit_bytes (d :: ds) ++ rest) = digit_bytes (d :: ds) ++ rest ->
  string_to_number (digit_bytes (d :: ds) ++ rest)
  = unsigned_decimal false (digit_bytes (d :: ds) ++ rest).
Proof.
  intros Hd Hds Hrest Htrim. unfold string_to_number. rewrite Htrim.
  cbn [digit_bytes map app].
  replace (48 + d =? 43)%N with false by (symmetry; apply N.eqb_neq; lia).
  replace (48 + d =? 45)%N with false by (symmetry; apply N.eqb_neq; lia).
  assert (forall b : N, (b < 58)%N ->
            ((b =? 120) || (b =? 88) = false
             /\ (b =? 111) || (b =? 79) = false
             /\ (b =? 98) || (b =? 66) = false)%N) as Hb.
  { intros b Hlt. repeat split; apply orb_false_iff; split;
      apply N.eqb_neq; lia. }
  destruct ds as [|d' ds]; simpl.
  - destruct rest as [|c rest]; [reflexivity|].
    destruct (Hb c) as (-> & -> & ->); [lia|].
    now rewrite !andb_false_r.
  - inversion Hds; subst.
    destruct (Hb (48 + d')%N) as (-> & -> & ->); [lia|].
    now rewrite !andb_false_r.
Qed.

Lemma not_Infinity (d : N) (l : list N) :
  (d < 10)%N -> bool_decide ((48 + d)%N :: l = bytes "Infinity") = false.
Proof.
  intros Hd. apply bool_decide_eq_false. intros H.
  set (i := bytes "Infinity") in H. vm_compute in i. subst i.
  injection H as H _. lia.
Qed.



(** X13. A MEETING_ID in groups of digits with a space or a hyphen between
    them, as Zoom displays meeting ids, is no number: [Number] gives [NaN]
    and the filter keeps no meeting, whatever its id. *)
Theorem grouped_meeting_id (s : string) (ds : list N) (c z : N)
    (rest : list N) :
  ds <> [] -> Forall (fun d => (d < 10)%N) ds ->
  c = 32%N \/ c = 45%N ->
  plain z ->
  bytes s = digit_bytes ds ++ c :: rest ++ [z] ->
  Number s = NaN /\ forall m, has_id (Number s) m = false.
Proof.
  intros Hne Hds Hc Hz Hs.
  assert (Number s = NaN) as Hnan.
  { unfold Number. rewrite Hs.
    destruct ds as [|d ds]; [contradiction|].
    inversion Hds as [|? ? Hd Hds']; subst.
    assert (trim (digit_bytes (d :: ds) ++ c :: rest ++ [z])
            = digit_bytes (d :: ds) ++ c :: rest ++ [z]) as Htrim.
    { cbn [digit_bytes map app].
      apply (trim_plain (48 + d) z _ (digit_bytes (d :: ds) ++ c :: rest)).
      - now apply digit_byte_plain.
      - exact Hz.
      - cbn [digit_bytes map app]. rewrite <- !app_assoc. reflexivity. }
    rewrite string_to_number_digits; try assumption.
    unfold unsigned_decimal.
    cbn [digit_bytes map app]. rewrite not_Infinity by assumption.
    change ((48 + d)%N :: map (N.add 48) ds ++ c :: rest ++ [z])
      with (digit_bytes (d :: ds) ++ c :: rest ++ [z]).
    rewrite digits_decimal; [|assumption|destruct Hc as [-> | ->]; reflexivity].
    replace (0 <? Z.of_nat (length (d :: ds))) with true
      by (symmetry; apply Z.ltb_lt; simpl; lia).
    destruct Hc as [-> | ->]; reflexivity. }
  split; [exact Hnan|]. intros m. rewrite Hnan. unfold has_id.
  destruct (Get m "id") as [[| | |[]| | |]|]; reflexivity.
Qed.

End MeetingIdNumber.

(** *** The sort of the files *)

Section Sort.

Context {platform : Platform}.

Lemma insert_Permutation (a : value) (l r : list value) :
  insert a l = Ok r -> Permutation r (a :: l).
Proof.
  revert r. induction l as [|b l IH]; intros r; simpl.
  - now intros [= <-].
  - destruct (compare_files a b) as [c|]; simpl; [|discriminate].
    destruct (match c with Some z => 0 <? z | None => false end).
    + destruct (insert a l) as [r'|]; simpl; [|discriminate].
      intros [= <-]. rewrite (IH r' eq_refl). apply perm_swap.
    + now intros [= <-].
Qed.

Lemma array_sort_Permutation (files sorted : list value) :
  array_sort files = Ok sorted -> Permutation sorted files.
Proof.
  revert sorted. induction files as [|a files IH]; intros sorted; simpl.
  - now intros [= <-].
  - destruct (array_sort files) as [s|]; simpl; [|discriminate].
    intros H. rewrite (insert_Permutation _ _ _ H).
    now rewrite (IH s eq_refl).
Qed.

Lemma compare_files_returns (a b : value) :
  type_has_text a -> type_has_text b -> exists c, compare_files a b = Ok c.
Proof.
  intros (ta & ka & Ha & Hka) (tb & kb & Hb & Hkb).
  unfold compare_files. rewrite Ha. simpl. rewrite Hka. simpl.
  rewrite Hb. simpl. rewrite Hkb. simpl. eauto.
Qed.

Lemma insert_returns (a : value) (l : list value) :
  type_has_text a -> Forall type_has_text l -> exists r, insert a l = Ok r.
Proof.
  intros Ha Hl. induction Hl as [|b l Hb _ [r IH]]; simpl; [eauto|].
  destruct (compare_files_returns a b Ha Hb) as [c ->]. simpl.
  rewrite IH. simpl.
  destruct (match c with Some z => 0 <? z | None => false end); eauto.
Qed.

(** X8. The sort of the files never loses or repeats a file: whenever it
    returns, its result is a permutation of the files, also when the
    comparison function is no consistent order.  It returns whenever the
    type of every file can be turned into a key, and an array of one file is
    returned as it is without any comparison. *)
Theorem sort_keeps_the_files (files : list value) :
  (forall sorted, array_sort files = Ok sorted -> Permutation sorted files)
  /\ (Forall type_has_text files ->
      exists sorted, array_sort files = Ok sorted
                     /\ Permutation sorted files)
  /\ (forall file, array_sort [file] = Ok [file]).
Proof.
  split; [exact (array_sort_Permutation files)|]. split; [|reflexivity].
  induction 1 as [|a files Ha Hfiles (sorted & Hsorted & Hperm)].
  - exists []. split; [reflexivity|constructor].
  - simpl. rewrite Hsorted. simpl.
    destruct (insert_returns a sorted Ha) as [r Hr].
    { eapply Permutation_Forall; [symmetry; exact Hperm|exact Hfiles]. }
    exists r. split; [exact Hr|].
    rewrite (insert_Permutation _ _ _ Hr). now constructor.
Qed.

End Sort.

(** *** The block of a meeting *)

Section Block.

Context {platform : Platform}.

Lemma described_not_nullish (file : value) :
  described file -> nullish file = false.
Proof. intros (t & Ht & _). destruct file; try reflexivity; discriminate. Qed.

Lemma described_rank (file : value) :
  described file ->
  exists t, Get file "file_type" = Ok (Str t)
            /\ file_rank file = Some (claimed_rank t).
Proof.
  intros (t & Ht & Hin & _). exists t. split; [exact Ht|].
  rewrite (file_rank_string _ _ Ht). unfold claimed_rank.
  repeat case_bool_decide; try reflexivity. contradiction.
Qed.

Lemma filter_described (f g : value -> bool) (files : list value) :
  Forall described files ->
  (forall file, described file -> f file = g file) ->
  List.filter f files = List.filter g files.
Proof.
  intros Hfiles Hfg. induction Hfiles as [|file files Hfile _ IH];
    [reflexivity|].
  simpl. now rewrite IH, (Hfg file Hfile).
Qed.

Lemma of_rank_claimed (r : Z) (files : list value) :
  Forall described files ->
  of_rank r files
  = List.filter (fun file => match Get file "file_type" with
                             | Ok (Str t) => bool_decide (claimed_rank t = r)
                             | _ => false
                             end) files.
Proof.
  intros Hfiles. unfold of_rank. apply filter_described; [exact Hfiles|].
  intros file Hfile. destruct (described_rank file Hfile) as (t & -> & ->).
  repeat case_bool_decide; congruence.
Qed.

Lemma Forall_filter_described (f : value -> bool) (files : list value) :
  Forall described files -> Forall described (List.filter f files).
Proof.
  intros H. apply List.Forall_forall. intros file Hin.
  apply filter_In in Hin as [Hin _].
  now apply (proj1 (List.Forall_forall _ _) H).
Qed.

Lemma forEach_richer_lines (files : list value) (html : string) :
  Forall described files ->
  forEach (list_file Richer) files html
  = Ok (html +:+ blocks_text (map richer_line files)).
Proof.
  intros Hfiles. revert html.
  induction Hfiles as [|file files (t & Ht & _ & Hurl) _ IH]; intros html.
  - simpl. now rewrite append_empty_r.
  - cbn [forEach map blocks_text foldr].
    fold (blocks_text (map richer_line files)).
    destruct Hurl as [Hlacks | (u & Hu & Hne)].
    + rewrite (list_file_lacks_url Richer html file Hlacks). simpl.
      rewrite IH. unfold richer_line. rewrite Ht. unfold lacks_url in Hlacks.
      destruct (Get file "play_url") as [[| | | |u| |]|]; try reflexivity.
      simpl in Hlacks. apply negb_true_iff, negb_false_iff in Hlacks.
      now rewrite Hlacks.
    + rewrite (list_file_label html file t u Ht Hu Hne). simpl.
      rewrite IH. unfold richer_line. rewrite Hu, Ht.
      rewrite bool_decide_eq_false_2 by assumption.
      now rewrite append_assoc.
Qed.

(** X9. The block of a meeting in the second version, for files as Zoom
    describes them (the type a string that is no inherited name, the URL
    missing or a string): SUMMARY and CHAT files are left out, then come the
    lines of the MP4 files, those of the M4A files and those of the other
    files, each group in the order of the response; a line shows VIDEO for
    MP4, AUDIO for M4A and else the type, and a file without URL has no
    line. *)
Theorem richer_block (meeting start_time : value) (startTime html : string)
    (files : list value) :
  Get meeting "start_time" = Ok start_time ->
  formatDate Richer start_time = Ok startTime ->
  Get meeting "recording_files" = Ok (Arr files) ->
  Forall described files ->
  list_meeting Richer html meeting
  = Ok (html +:+ meeting_open Richer startTime EmptyString
        +:+ blocks_text
              (map richer_line
                 (claimed_order
                    (List.filter (fun file => negb (summary_or_chat file))
                                 files)))
        +:+ meeting_close).
Proof.
  intros Hstart Hdate Hfiles Hdescribed.
  unfold list_meeting. rewrite Hstart. simpl. rewrite Hdate. simpl.
  rewrite Hfiles. simpl.
  pose proof (Forall_filter_described
                (fun file => negb (summary_or_chat file)) files Hdescribed)
    as Hkept.
  set (kept := List.filter (fun file => negb (summary_or_chat file)) files)
    in *.
  pose proof (files_dropped_and_sorted files) as Hsorted. simpl in Hsorted.
  fold kept in Hsorted.
  destruct (array_filter not_summary_or_chat files) as [filtered|] eqn:Hf.
  2:{ exfalso. rewrite array_filter_not_summary_or_chat in Hf;
        [discriminate|].
      eapply List.Forall_impl; [|exact Hdescribed].
      apply described_not_nullish. }
  simpl in *. rewrite Hsorted.
  - simpl. rewrite !(of_rank_claimed _ kept Hkept).
    fold (claimed_order kept).
    rewrite forEach_richer_lines.
    + simpl. now rewrite !append_assoc.
    + unfold claimed_order. rewrite !Forall_app.
      repeat split; now apply Forall_filter_described.
  - eapply List.Forall_impl; [|exact Hdescribed].
    apply described_not_nullish.
  - eapply List.Forall_impl; [|exact Hkept].
    intros file Hfile. destruct (described_rank file Hfile) as (t & _ & ->).
    eauto.
Qed.

Lemma forEach_simple_lines (stamp : value -> string) (files : list value)
    (html : string) :
  Forall (fun file =>
            exists recording_start,
              Get file "recording_start" = Ok recording_start
              /\ formatDate Simple recording_start = Ok (stamp file)
              /\ (lacks_url file = true
                  \/ exists u, Get file "play_url" = Ok (Str u)
                               /\ u <> EmptyString)
              /\ exists file_type,
                   Get file "file_type" = Ok file_type
                   /\ (ToBoolean file_type = false
                       \/ exists t, file_type = Str t))
         files ->
  forEach (list_file Simple) files html
  = Ok (html +:+ blocks_text (map (simple_line stamp) files)).
Proof.
  intros Hfiles. revert html.
  induction Hfiles
    as [|file files (rs & Hrs & Hstamp & Hurl & ft & Hft & Htype) _ IH];
    intros html.
  - simpl. now rewrite append_empty_r.
  - cbn [forEach map blocks_text foldr].
    fold (blocks_text (map (simple_line stamp) files)).
    destruct Hurl as [Hlacks | (u & Hu & Hne)].
    + rewrite (list_file_lacks_url Simple html file Hlacks). simpl.
      rewrite IH. unfold simple_line. rewrite Hft. unfold lacks_url in Hlacks.
      destruct (Get file "play_url") as [[| | | |u| |]|]; try reflexivity.
      simpl in Hlacks. apply negb_true_iff, negb_false_iff in Hlacks.
      now rewrite Hlacks.
    + unfold list_file. rewrite Hu. simpl.
      rewrite bool_decide_eq_false_2 by assumption. simpl.
      rewrite Hft. simpl. rewrite Hrs. simpl. rewrite Hstamp. simpl.
      unfold simple_line. rewrite Hu, Hft.
      rewrite bool_decide_eq_false_2 by assumption.
      destruct Htype as [Hfalsy | (t & ->)].
      * unfold or_else. rewrite Hfalsy. simpl. rewrite IH.
        destruct ft as [| | | |t| |]; try (now rewrite append_assoc);
          try discriminate.
        simpl in Hfalsy. apply negb_false_iff in Hfalsy.
        rewrite Hfalsy. now rewrite append_assoc.
      * unfold or_else. simpl. case_bool_decide; simpl; rewrite IH;
          now rewrite append_assoc.
Qed.

(** X10. The block of a meeting in the first version: the start and the
    topic of the meeting (MCA Meeting when the topic is missing or empty),
    then one line for each file with a URL, in the order of the response and
    whatever the type (SUMMARY and CHAT files are listed too), with the type
    as it is, or Recording when it is missing, and the text of the
    recording start. *)
Theorem simple_block (meeting start_time topic : value)
    (startTime html : string) (files : list value) (stamp : value -> string) :
  Get meeting "start_time" = Ok start_time ->
  formatDate Simple start_time = Ok startTime ->
  Get meeting "topic" = Ok topic ->
  ToBoolean topic = false \/ (exists t, topic = Str t) ->
  Get meeting "recording_files" = Ok (Arr files) ->
  Forall (fun file =>
            exists recording_start,
              Get file "recording_start" = Ok recording_start
              /\ formatDate Simple recording_start = Ok (stamp file)
              /\ (lacks_url file = true
                  \/ exists u, Get file "play_url" = Ok (Str u)
                               /\ u <> EmptyString)
              /\ exists file_type,
                   Get file "file_type" = Ok file_type
                   /\ (ToBoolean file_type = false
                       \/ exists t, file_type = Str t))
         files ->
  list_meeting Simple html meeting
  = Ok (html
        +:+ meeting_open Simple startTime
              (match topic with
               | Str t => if bool_decide (t = EmptyString) then "MCA Meeting"
                          else t
               | _ => "MCA Meeting"
               end)
        +:+ blocks_text (map (simple_line stamp) files)
        +:+ meeting_close).
Proof.
  intros Hstart Hdate Htopic Htext Hfiles Hdescribed.
  unfold list_meeting. rewrite Hstart. simpl. rewrite Hdate. simpl.
  rewrite Htopic. simpl.
  assert (ToString (or_else topic (Str "MCA Meeting"))
          = Ok match topic with
               | Str t => if bool_decide (t = EmptyString) then "MCA Meeting"
                          else t
               | _ => "MCA Meeting"
               end) as ->.
  { unfold or_else. destruct Htext as [Hfalsy | (t & ->)].
    - rewrite Hfalsy. destruct topic as [| | | |t| |]; try reflexivity.
      simpl in Hfalsy. apply negb_false_iff in Hfalsy.
      now rewrite Hfalsy.
    - simpl. case_bool_decide; reflexivity. }
  simpl. rewrite Hfiles. simpl.
  rewrite (forEach_simple_lines stamp files _ Hdescribed). simpl.
  now rewrite !append_assoc.
Qed.

End Block.

(** *** The credentials of the token request *)

Section Credentials.

Context {platform : Platform}.

Lemma in_all_bytes (a : N) : (a < 256)%N -> In a all_bytes.
Proof.
  intros Ha. unfold all_bytes. apply in_map_iff. exists (N.to_nat a).
  split; [apply N2Nat.id|]. apply in_seq. lia.
Qed.

(** A property of two bytes that holds by computation for all of them. *)
Lemma for_all_bytes (P : N -> N -> bool) :
  forallb (fun a => forallb (P a) all_bytes) all_bytes = true ->
  forall a b, (a < 256)%N -> (b < 256)%N -> P a b = true.
Proof.
  intros H a b Ha Hb.
  rewrite forallb_forall in H. specialize (H a (in_all_bytes a Ha)).
  rewrite forallb_forall in H. exact (H b (in_all_bytes b Hb)).
Qed.

Lemma bytes_base64_digit (n : N) : bytes (base64_digit n) = [letter n].
Proof.
  unfold base64_digit. apply bytes_char. fold (letter n). unfold letter.
  destruct (nth_in_or_default (N.to_nat n) base64_alphabet 61%N)
    as [Hin | ->]; [|lia].
  revert Hin. generalize (nth (N.to_nat n) base64_alphabet 61%N).
  intros h Hin. unfold base64_alphabet in Hin.
  set (l := bytes _) in Hin. vm_compute in l. subst l. simpl in Hin.
  repeat destruct Hin as [<- | Hin]; try lia; try contradiction.
Qed.

Lemma bytes_bounded (s : string) : Forall (fun a => (a < 256)%N) (bytes s).
Proof.
  unfold bytes. induction s as [|c s IH]; simpl; constructor;
    [apply Ascii.N_ascii_bounded|exact IH].
Qed.

Lemma bytes_inj (s s' : string) : bytes s = bytes s' -> s = s'.
Proof.
  unfold bytes. revert s'. induction s as [|c s IH]; intros [|c' s']; simpl;
    try discriminate; [reflexivity|].
  intros [= Hc Hs]. f_equal; [|now apply IH].
  rewrite <- (Ascii.ascii_N_embedding c), <- (Ascii.ascii_N_embedding c').
  now rewrite Hc.
Qed.

Lemma reads_back_12_all (a b : N) :
  (a < 256)%N -> (b < 256)%N -> reads_back_12 a b = true.
Proof. revert a b. apply for_all_bytes. vm_compute. reflexivity. Qed.

Lemma reads_back_23_all (b c : N) :
  (b < 256)%N -> (c < 256)%N -> reads_back_23 b c = true.
Proof. revert b c. apply for_all_bytes. vm_compute. reflexivity. Qed.

Lemma group_12 (a b : N) :
  (a < 256)%N -> (b < 256)%N ->
  let c1 := letter (N.shiftr a 2) in
  let c2 := letter (N.lor (N.shiftl (N.land a 3) 4) (N.shiftr b 4)) in
  N.lor (N.shiftl (base64_value c1) 2) (N.shiftr (base64_value c2) 4) = a
  /\ N.land (base64_value c2) 15 = N.shiftr b 4
  /\ (c1 =? 61)%N = false /\ (c2 =? 61)%N = false.
Proof.
  intros Ha Hb. pose proof (reads_back_12_all a b Ha Hb) as H.
  unfold reads_back_12 in H. cbv zeta in *.
  repeat (apply andb_true_iff in H as [H ?]).
  repeat split; try (now apply N.eqb_eq); now apply negb_true_iff.
Qed.

Lemma group_23 (b c : N) :
  (b < 256)%N -> (c < 256)%N ->
  let c3 := letter (N.lor (N.shiftl (N.land b 15) 2) (N.shiftr c 6)) in
  let c4 := letter (N.land c 63) in
  N.lor (N.shiftl (N.shiftr b 4) 4) (N.shiftr (base64_value c3) 2) = b
  /\ N.lor (N.shiftl (N.land (base64_value c3) 3) 6) (base64_value c4) = c
  /\ (c3 =? 61)%N = false /\ (c4 =? 61)%N = false.
Proof.
  intros Hb Hc. pose proof (reads_back_23_all b c Hb Hc) as H.
  unfold reads_back_23 in H. cbv zeta in *.
  repeat (apply andb_true_iff in H as [H ?]).
  repeat split; try (now apply N.eqb_eq); now apply negb_true_iff.
Qed.

(** Reading back the base64 text of bytes gives the bytes. *)
Lemma base64_decode_base64 (l : list N) :
  Forall (fun a => (a < 256)%N) l -> base64_decode (bytes (base64 l)) = l.
Proof.
  revert l.
  assert (forall n (l : list N), (length l <= n)%nat ->
            Forall (fun a => (a < 256)%N) l ->
            base64_decode (bytes (base64 l)) = l) as H.
  { induction n as [|n IH]; intros l Hlen Hl.
    - destruct l; [reflexivity|simpl in Hlen; lia].
    - destruct l as [|a [|b [|c r]]]; [reflexivity| | |].
      + inversion Hl as [|? ? Ha _]; subst.
        cbn [base64]. rewrite !bytes_append, !bytes_base64_digit.
        destruct (group_12 a 0 Ha) as (H1 & _ & _ & _); [lia|].
        change (N.shiftr 0 4) with 0%N in H1. rewrite N.lor_0_r in H1.
        cbn [app bytes base64_decode]. simpl (bytes "==").
        cbn [app base64_decode N.eqb Pos.eqb]. now rewrite H1.
      + inversion Hl as [|? ? Ha Hl']; subst.
        inversion Hl' as [|? ? Hb _]; subst.
        cbn [base64]. rewrite !bytes_append, !bytes_base64_digit.
        destruct (group_12 a b Ha Hb) as (H1 & H2 & _ & _).
        destruct (group_23 b 0 Hb) as (H3 & _ & H4 & _); [lia|].
        change (N.shiftr 0 6) with 0%N in H3, H4.
        rewrite N.lor_0_r in H3, H4.
        simpl (bytes "="). cbn [app base64_decode].
        rewrite H4. cbn [N.eqb Pos.eqb]. now rewrite H1, H2, H3.
      + inversion Hl as [|? ? Ha Hl']; subst.
        inversion Hl' as [|? ? Hb Hl'']; subst.
        inversion Hl'' as [|? ? Hc Hr]; subst.
        cbn [base64]. rewrite !bytes_append, !bytes_base64_digit.
        destruct (group_12 a b Ha Hb) as (H1 & H2 & _ & _).
        destruct (group_23 b c Hb Hc) as (H3 & H4 & H5 & H6).
        cbn [app base64_decode]. rewrite H5, H6, H1, H2, H3, H4.
        rewrite IH; [reflexivity| |exact Hr]. simpl in Hlen. lia. }
  intros l. now apply (H (length l)).
Qed.

(** X12. The authorization of the token request determines the
    credentials: base64 maps different texts to different texts, so two
    configurations whose credentials (client id, colon, client secret)
    differ never send the same authorization. *)
Theorem credentials_in_authorization (env env' : gmap string string) :
  (forall s s', base64 (bytes s) = base64 (bytes s') -> s = s')
  /\ (authorization (token_request env) = authorization (token_request env') ->
      credentials (text_of (env !! "ZOOM_CLIENT_ID"))
                  (text_of (env !! "ZOOM_CLIENT_SECRET"))
      = credentials (text_of (env' !! "ZOOM_CLIENT_ID"))
                    (text_of (env' !! "ZOOM_CLIENT_SECRET"))).
Proof.
  assert (forall s s', base64 (bytes s) = base64 (bytes s') -> s = s') as Hinj.
  { intros s s' H. apply bytes_inj.
    rewrite <- (base64_decode_base64 (bytes s)) by apply bytes_bounded.
    rewrite H. apply base64_decode_base64, bytes_bounded. }
  split; [exact Hinj|].
  unfold token_request, basic_authorization. simpl. intros H.
  apply String.app_inj in H. now apply Hinj.
Qed.

End Credentials.

(** *** Examples of the further properties *)

(** A 403 on the recordings request, after a token. *)
Lemma recordings_failure_example :
  handler (platform := example_platform) (configured "222") zoom_forbidden
    Simple
  = ([Fetched (token_request (configured "222"));
      Fetched (recordings_request (configured "222") Simple "token");
      ConsoleError [LogText "Error fetching recordings:"; LogStatus 403;
                    LogText "Forbidden"]],
     failure "Failed to fetch recordings from Zoom.").
Proof.
  edestruct (recordings_failure (platform := example_platform)
               (configured "222") zoom_forbidden Simple)
    as (_ & _ & H & _); [reflexivity..|].
  exact (H _ eq_refl).
Defined.

(** A token response that is an empty object. *)
Lemma missing_access_token_example :
  exists second,
    fetches (handler (platform := example_platform) (configured "222")
               (zoom_without_token (object [])) Richer).1
    = [token_request (configured "222"); second]
    /\ method second = "GET"
    /\ authorization second = "Bearer undefined".
Proof.
  eapply (missing_access_token (platform := example_platform)
            (configured "222") (zoom_without_token (object [])) Richer);
    reflexivity.
Defined.


(** A recordings body without meetings. *)
Lemma no_meetings_listed_example :
  (handler (platform := example_platform) (configured "222")
     (zoom_body (object [])) Simple).2
  = page (page_open Simple "222" +:+ no_recordings +:+ page_close Simple).
Proof.
  eapply (no_meetings_listed (platform := example_platform)
            (configured "222") (zoom_body (object [])) Simple "222"
            (object []) Undefined); try reflexivity.
  econstructor; reflexivity.
Defined.

(** A recordings body that lists [null] among its meetings. *)
Lemma malformed_recordings_body_example :
  (handler (platform := example_platform) (configured "222")
     (zoom_body (object [("meetings", Arr [meeting_with_id "222"; Null])]))
     Richer).2
  = failure "Unexpected error loading recordings.".
Proof.
  eapply (malformed_recordings_body (platform := example_platform)
            (configured "222") _ Richer
            (object [("meetings", Arr [meeting_with_id "222"; Null])])).
  - reflexivity.
  - econstructor; reflexivity.
  - right. right. exists [meeting_with_id "222"; Null].
    split; [reflexivity|]. right. left. reflexivity.
Defined.


(** The MEETING_ID 813 4567 8901, as Zoom displays it. *)
Lemma grouped_meeting_id_example :
  Number "813 4567 8901" = NaN
  /\ forall m, has_id (Number "813 4567 8901") m = false.
Proof.
  apply (grouped_meeting_id "813 4567 8901" [8; 1; 3]%N 32%N 49%N
           (bytes "4567 890")).
  - discriminate.
  - repeat constructor.
  - left. reflexivity.
  - split; reflexivity.
  - reflexivity.
Defined.

Lemma file_described (t : string) (u : option string) :
  bool_decide (t ∈ inherited) = false ->
  match u with Some u => u <> EmptyString | None => True end ->
  described (file t u).
Proof.
  intros Ht Hu. exists t. split; [now destruct u|].
  split; [now apply bool_decide_eq_false in Ht|].
  destruct u as [u|]; [right|left; reflexivity].
  exists u. split; [reflexivity|exact Hu].
Defined.

(** The block of the meeting of the examples in the second version: VIDEO
    (u2), AUDIO (u1), TRANSCRIPT (u3). *)
Lemma richer_block_example :
  list_meeting (platform := example_platform) Richer EmptyString
    recorded_meeting
  = Ok (meeting_open Richer EmptyString EmptyString
        +:+ file_entry Richer "u2" "VIDEO" EmptyString
        +:+ file_entry Richer "u1" "AUDIO" EmptyString
        +:+ file_entry Richer "u3" "TRANSCRIPT" EmptyString
        +:+ meeting_close).
Proof.
  apply (richer_block (platform := example_platform) recorded_meeting
           Undefined EmptyString EmptyString
           [file "CHAT" None; file "M4A" (Some "u1");
            file "SUMMARY" (Some "u4"); file "MP4" (Some "u2");
            file "TRANSCRIPT" (Some "u3")]).
  - reflexivity.
  - reflexivity.
  - reflexivity.
  - repeat constructor; apply file_described; try reflexivity; try exact I;
      discriminate.
Defined.

(** The block of the same meeting in the first version: every file with a
    URL, in the order of the response. *)
Lemma simple_block_example :
  list_meeting (platform := example_platform) Simple EmptyString
    recorded_meeting
  = Ok (meeting_open Simple EmptyString "MCA Meeting"
        +:+ file_entry Simple "u1" "M4A" EmptyString
        +:+ file_entry Simple "u4" "SUMMARY" EmptyString
        +:+ file_entry Simple "u2" "MP4" EmptyString
        +:+ file_entry Simple "u3" "TRANSCRIPT" EmptyString
        +:+ meeting_close).
Proof.
  apply (simple_block (platform := example_platform) recorded_meeting
           Undefined Undefined EmptyString EmptyString
           [file "CHAT" None; file "M4A" (Some "u1");
            file "SUMMARY" (Some "u4"); file "MP4" (Some "u2");
            file "TRANSCRIPT" (Some "u3")] (fun _ => EmptyString)).
  - reflexivity.
  - reflexivity.
  - reflexivity.
  - left. reflexivity.
  - reflexivity.
  - repeat constructor;
      (exists Undefined; split; [reflexivity|]; split; [reflexivity|];
       split; [first [left; reflexivity
                     | right; eexists; split; [reflexivity|discriminate]]|];
       eexists; split; [reflexivity|right; eexists; reflexivity]).
Defined.
